(** * api4/group.go: the group-syncable linkage handlers

    A shallow embedding of the HTTP handlers of [api4/group.go].  A handler
    is a program over the calls it makes on [c.App]; running it against
    an application threads the application state and records every call
    together with its answer. *)

From stdpp Require Import gmap strings list.
From Stdlib Require Import ZArith Lia.

Local Open Scope Z_scope.
Local Open Scope string_scope.

(** ** The [model] package, as far as [group.go] uses it *)

Module model.

(** The permissions [group.go] names ([model.PERMISSION_...]). *)
Inductive Permission : Type :=
| PERMISSION_MANAGE_SYSTEM
| PERMISSION_MANAGE_TEAM
| PERMISSION_MANAGE_PUBLIC_CHANNEL_MEMBERS
| PERMISSION_MANAGE_PRIVATE_CHANNEL_MEMBERS.

(** [permission.Id]. *)
Definition PermissionId (p : Permission) : string :=
  match p with
  | PERMISSION_MANAGE_SYSTEM => "manage_system"
  | PERMISSION_MANAGE_TEAM => "manage_team"
  | PERMISSION_MANAGE_PUBLIC_CHANNEL_MEMBERS => "manage_public_channel_members"
  | PERMISSION_MANAGE_PRIVATE_CHANNEL_MEMBERS => "manage_private_channel_members"
  end.

(** [model.AppError], with the fields [NewAppError] fills in. *)
Record AppError : Type := NewAppError {
  Where : string;
  Id : string;
  DetailedError : string;
  StatusCode : Z
}.

(** Modelled from the spec: the syncable type is declared in the model
    package; it is the closed set {Team, Channel}. *)
Inductive GroupSyncableType : Type :=
| GroupSyncableTypeTeam
| GroupSyncableTypeChannel.

#[global] Instance GroupSyncableType_eq_dec : EqDecision GroupSyncableType.
Proof. solve_decision. Defined.

#[global] Instance GroupSyncableType_countable : Countable GroupSyncableType.
Proof.
  refine (inj_countable'
            (fun t => match t with
                      | GroupSyncableTypeTeam => false
                      | GroupSyncableTypeChannel => true
                      end)
            (fun b => if b then GroupSyncableTypeChannel
                      else GroupSyncableTypeTeam) _).
  intros []; reflexivity.
Defined.

(** [syncableType.String()]. *)
Definition GroupSyncableTypeString (t : GroupSyncableType) : string :=
  match t with
  | GroupSyncableTypeTeam => "Team"
  | GroupSyncableTypeChannel => "Channel"
  end.

(** Modelled from the spec: the struct is declared in the model package.
    Composite identity (groupId, syncableId, syncableType), an auto-add
    flag, a creation timestamp and the soft-delete timestamp. *)
Record GroupSyncable : Type := {
  GroupId : string;
  SyncableId : string;
  AutoAdd : bool;
  CreateAt : Z;
  DeleteAt : Z;
  Type' : GroupSyncableType
}.

(** Modelled from the spec: a partial update payload, a field is present
    or absent. *)
Record GroupSyncablePatch : Type := {
  PatchAutoAdd : option bool
}.

(** Modelled from the spec: [GroupSyncable.Patch] is declared in the model
    package; applying a patch mutates only the fields present, leaving
    the others unchanged. *)
Definition Patch (syncable : GroupSyncable) (patch : GroupSyncablePatch)
  : GroupSyncable :=
  match PatchAutoAdd patch with
  | Some v =>
      {| GroupId := GroupId syncable; SyncableId := SyncableId syncable;
         AutoAdd := v; CreateAt := CreateAt syncable;
         DeleteAt := DeleteAt syncable; Type' := Type' syncable |}
  | None => syncable
  end.

(** [groupSyncable.DeleteAt = v]. *)
Definition setDeleteAt (syncable : GroupSyncable) (v : Z) : GroupSyncable :=
  {| GroupId := GroupId syncable; SyncableId := SyncableId syncable;
     AutoAdd := AutoAdd syncable; CreateAt := CreateAt syncable;
     DeleteAt := v; Type' := Type' syncable |}.

(** Modelled from the spec: identifier, display name, remote-source
    identifier, optional member count, soft-delete timestamp. *)
Record Group : Type := {
  GroupIdent : string;
  DisplayName : string;
  RemoteId : string;
  MemberCount : option Z;
  GroupDeleteAt : Z
}.

(** [model.GroupSearchOpts]: the three fields the handlers assign. *)
Record GroupSearchOpts : Type := {
  Q : option string;
  NotAssociatedToTeam : option string;
  IncludeMemberCount : bool
}.

(** [c.App.License()]: a nil license, or one with its LDAPGroups
    feature flag. *)
Record License : Type := {
  LDAPGroups : bool
}.

End model.

(** [http] status codes and [sql.ErrNoRows.Error()]. *)
Definition StatusCreated : Z := 201.
Definition StatusOK : Z := 200.
Definition StatusBadRequest : Z := 400.
Definition StatusForbidden : Z := 403.
Definition StatusNotImplemented : Z := 501.
Definition ErrNoRows : string := "sql: no rows in result set".

(** ** Calls on [c.App] *)

(** Go's result pair of a record pointer and an error pointer: either may
    be nil. *)
Definition Result (T : Type) : Type := (option T * option model.AppError)%type.

(** [c.App.UpdateGroupSyncable] takes a record pointer:
    [UpdateGroupSyncable gs] is the call with a record,
    [UpdateGroupSyncableNil] the call with the nil pointer.
    [c.App.CreateGroupSyncable] is only ever handed a record. *)
Inductive AppCall : Type -> Type :=
| License : AppCall (option model.License)
| SessionHasPermissionTo (p : model.Permission) : AppCall bool
| SessionHasPermissionToTeam (teamId : string) (p : model.Permission)
    : AppCall bool
| SessionHasPermissionToChannel (channelId : string) (p : model.Permission)
    : AppCall bool
| GetGroupSyncable (groupId syncableId : string)
    (t : model.GroupSyncableType) : AppCall (Result model.GroupSyncable)
| CreateGroupSyncable (gs : model.GroupSyncable)
    : AppCall (Result model.GroupSyncable)
| UpdateGroupSyncable (gs : model.GroupSyncable)
    : AppCall (Result model.GroupSyncable)
| UpdateGroupSyncableNil : AppCall (Result model.GroupSyncable)
| DeleteGroupSyncable (groupId syncableId : string)
    (t : model.GroupSyncableType) : AppCall (Result model.GroupSyncable)
| GetGroupsPage (page perPage : Z) (opts : model.GroupSearchOpts)
    : AppCall (list model.Group * option model.AppError)
| GetGroupsByTeam (teamId : string) (page perPage : option Z)
    (opts : model.GroupSearchOpts)
    : AppCall (list model.Group * option model.AppError).

(** A call with the answer the application gave. *)
Inductive Event : Type :=
| Ev {X : Type} (call : AppCall X) (answer : X).

(** The calls that write to the syncable store. *)
Definition isWriteCall {X : Type} (call : AppCall X) : bool :=
  match call with
  | CreateGroupSyncable _ => true
  | UpdateGroupSyncable _ => true
  | UpdateGroupSyncableNil => true
  | DeleteGroupSyncable _ _ _ => true
  | _ => false
  end.

Definition isWrite (ev : Event) : bool :=
  match ev with
  | Ev call _ => isWriteCall call
  end.

Definition isCreate (ev : Event) : bool :=
  match ev with
  | Ev (CreateGroupSyncable _) _ => true
  | Ev _ _ => false
  end.

Definition isUpdate (ev : Event) : bool :=
  match ev with
  | Ev (UpdateGroupSyncable _) _ => true
  | Ev UpdateGroupSyncableNil _ => true
  | Ev _ _ => false
  end.

Definition isPermissionCheck (ev : Event) : bool :=
  match ev with
  | Ev (SessionHasPermissionTo _) _ => true
  | Ev (SessionHasPermissionToTeam _ _) _ => true
  | Ev (SessionHasPermissionToChannel _ _) _ => true
  | Ev _ _ => false
  end.

Definition writes (tr : list Event) : nat :=
  length (filter (fun ev => isWrite ev = true) tr).

(** ** Handler programs *)

(** A handler either returns a value, sets [c.Err] and returns, dereferences
    a nil pointer, or calls the application and goes on with the answer. *)
Inductive Prog (R : Type) : Type :=
| Ret (r : R)
| Fail (err : model.AppError)
| Panic
| Call {X : Type} (call : AppCall X) (k : X -> Prog R).

Arguments Ret {R} r.
Arguments Fail {R} err.
Arguments Panic {R}.
Arguments Call {R X} call k.

Fixpoint bind {A B : Type} (p : Prog A) (f : A -> Prog B) : Prog B :=
  match p with
  | Ret a => f a
  | Fail e => Fail e
  | Panic => Panic
  | Call c k => Call c (fun x => bind (k x) f)
  end.

Definition app {X : Type} (call : AppCall X) : Prog X := Call call Ret.

#[global] Instance Prog_ret : MRet Prog := @Ret.
#[global] Instance Prog_bind : MBind Prog := fun A B f p => bind p f.

(** How a run of a handler ends. *)
Inductive Outcome (R : Type) : Type :=
| Done (r : R)
| Failed (err : model.AppError)
| Panicked.

Arguments Done {R} r.
Arguments Failed {R} err.
Arguments Panicked {R}.

(** An application: each call answers and moves the state. *)
Class App (S : Type) : Type := {
  handle : forall X : Type, AppCall X -> S -> X * S
}.

Arguments handle {S App X} call s.

Record Run (S R : Type) : Type := mkRun {
  outcome : Outcome R;
  final : S;
  trace : list Event
}.

Arguments mkRun {S R} outcome final trace.
Arguments outcome {S R} r.
Arguments final {S R} r.
Arguments trace {S R} r.

Definition logged {S R : Type} (ev : Event) (r : Run S R) : Run S R :=
  mkRun (outcome r) (final r) (ev :: trace r).

Fixpoint run {S R : Type} {theApp : App S} (p : Prog R) (s : S) : Run S R :=
  match p with
  | Ret r => mkRun (Done r) s []
  | Fail e => mkRun (Failed e) s []
  | Panic => mkRun Panicked s []
  | Call c k =>
      let '(x, s') := handle c s in
      logged (Ev c x) (run (k x) s')
  end.

(** ** The request context *)

(** [c.Params]: the request parameters the handlers read. *)
Module Params.
Record t : Type := {
  GroupId : string;
  SyncableId : string;
  SyncableType : model.GroupSyncableType;
  TeamId : string;
  ChannelId : string;
  Q : string;
  NotAssociatedToTeam : string;
  IncludeMemberCount : bool;
  Paginate : option bool;
  Page : Z;
  PerPage : Z
}.
End Params.

(** The [c.Require...] checks are declared with the context, outside
    [group.go]: each one looks at the parameters and may set [c.Err]. *)
Class ParamChecks : Type := {
  RequireGroupId : Params.t -> option model.AppError;
  RequireSyncableId : Params.t -> option model.AppError;
  RequireSyncableType : Params.t -> option model.AppError;
  RequireTeamId : Params.t -> option model.AppError
}.

(** What [ioutil.ReadAll(r.Body)] followed by [json.Unmarshal] yields: a
    read error, a decoding error, or the decoded pointer (nil for the JSON
    value null). *)
Inductive RequestBody : Type :=
| ReadAllError (msg : string)
| UnmarshalError
| Unmarshalled (patch : option model.GroupSyncablePatch).

(** Modelled from the spec: [c.SetPermissionError] is declared with the
    context; it is a permission-denied error naming the capability it is
    given. *)
Definition SetPermissionError (permission : model.Permission) : model.AppError :=
  model.NewAppError "Permissions" "api.context.permissions.app_error"
    ("permission=" +:+ model.PermissionId permission) StatusForbidden.

(** Modelled from the spec: [c.SetInvalidParam] is declared with the
    context; it is an invalid-argument error naming the field. *)
Definition SetInvalidParam (parameter : string) : model.AppError :=
  model.NewAppError "Context" "api.context.invalid_body_param.app_error"
    parameter StatusBadRequest.

(** A response written to [w]: the status code and the value marshalled
    into the body. *)
Definition Response (B : Type) : Type := (Z * B)%type.

(** [c.X(); if c.Err != nil { return }]. *)
Definition require (check : option model.AppError) : Prog unit :=
  match check with
  | Some err => Fail err
  | None => mret ()
  end.

(** [if err != nil { c.Err = err; return }]. *)
Definition orFail (appErr : option model.AppError) : Prog unit :=
  match appErr with
  | Some err => Fail err
  | None => mret ()
  end.

(** The license gate every handler opens with:
    [c.App.License() == nil || !*c.App.License().Features.LDAPGroups].
    The license is read a second time when the first read is not nil. *)
Definition requireLicense (where_ : string) : Prog unit :=
  l1 ← app License;
  match l1 with
  | None =>
      Fail (model.NewAppError where_ "api.ldap_groups.license_error" ""
              StatusNotImplemented)
  | Some _ =>
      l2 ← app License;
      match l2 with
      | None => Panic
      | Some l =>
          if negb (model.LDAPGroups l)
          then Fail (model.NewAppError where_ "api.ldap_groups.license_error"
                       "" StatusNotImplemented)
          else mret ()
      end
  end.

Definition setQ (opts : model.GroupSearchOpts) (q : string) : model.GroupSearchOpts :=
  {| model.Q := Some q;
     model.NotAssociatedToTeam := model.NotAssociatedToTeam opts;
     model.IncludeMemberCount := model.IncludeMemberCount opts |}.

Definition setNotAssociatedToTeam (opts : model.GroupSearchOpts) (teamID : string)
  : model.GroupSearchOpts :=
  {| model.Q := model.Q opts;
     model.NotAssociatedToTeam := Some teamID;
     model.IncludeMemberCount := model.IncludeMemberCount opts |}.

Definition setIncludeMemberCount (opts : model.GroupSearchOpts) (b : bool)
  : model.GroupSearchOpts :=
  {| model.Q := model.Q opts;
     model.NotAssociatedToTeam := model.NotAssociatedToTeam opts;
     model.IncludeMemberCount := b |}.

(** [model.GroupSearchOpts{}]. *)
Definition emptyOpts : model.GroupSearchOpts :=
  {| model.Q := None; model.NotAssociatedToTeam := None;
     model.IncludeMemberCount := false |}.

(** ** The handlers *)

Section Handlers.

Context {checks : ParamChecks}.

(** [getGroups], lines 71-108. *)
Definition getGroups (c : Params.t) : Prog (Response (list model.Group)) :=
  requireLicense "Api4.getGroups";;
  let opts := emptyOpts in
  let opts :=
    if (1 <? String.length (Params.Q c))%nat
    then setQ opts (Params.Q c) else opts in
  opts ←
    (if (String.length (Params.NotAssociatedToTeam c) =? 26)%nat
     then
       let teamID := Params.NotAssociatedToTeam c in
       allowed ← app (SessionHasPermissionToTeam teamID
                        model.PERMISSION_MANAGE_TEAM);
       if negb allowed
       then Fail (SetPermissionError model.PERMISSION_MANAGE_TEAM)
       else mret (setNotAssociatedToTeam opts teamID)
     else mret opts);
  let opts :=
    if Params.IncludeMemberCount c
    then setIncludeMemberCount opts true else opts in
  '(groups, err) ← app (GetGroupsPage (Params.Page c) (Params.PerPage c) opts);
  orFail err;;
  mret (StatusOK, groups).

(** [linkGroupSyncable], lines 222-233: the permission switch. *)
Definition linkPermissionCheck (syncableID : string)
    (syncableType : model.GroupSyncableType) : Prog unit :=
  match syncableType with
  | model.GroupSyncableTypeTeam =>
      allowed ← app (SessionHasPermissionToTeam syncableID
                       model.PERMISSION_MANAGE_TEAM);
      if negb allowed
      then Fail (SetPermissionError model.PERMISSION_MANAGE_TEAM)
      else mret ()
  | model.GroupSyncableTypeChannel =>
      allowed ← app (SessionHasPermissionToChannel syncableID
                       model.PERMISSION_MANAGE_PUBLIC_CHANNEL_MEMBERS);
      if negb allowed
      then Fail (SetPermissionError
                   model.PERMISSION_MANAGE_PRIVATE_CHANNEL_MEMBERS)
      else mret ()
  end.

(** [&model.GroupSyncable{GroupId: ..., SyncableId: ..., Type: ...}]:
    the other fields hold Go's zero values. *)
Definition newGroupSyncable (groupId syncableID : string)
    (syncableType : model.GroupSyncableType) : model.GroupSyncable :=
  {| model.GroupId := groupId; model.SyncableId := syncableID;
     model.AutoAdd := false; model.CreateAt := 0; model.DeleteAt := 0;
     model.Type' := syncableType |}.

(** [linkGroupSyncable], lines 235-271: lookup, then create or update. *)
Definition linkLookupAndPersist (c : Params.t) (syncableID : string)
    (syncableType : model.GroupSyncableType)
    (patch : model.GroupSyncablePatch)
  : Prog (Response (option model.GroupSyncable)) :=
  '(groupSyncable, appErr) ←
    app (GetGroupSyncable (Params.GroupId c) syncableID syncableType);
  match appErr with
  | Some err =>
      if negb (String.eqb (model.DetailedError err) ErrNoRows)
      then Fail err else mret ()
  | None => mret ()
  end;;
  match groupSyncable with
  | None =>
      let groupSyncable :=
        newGroupSyncable (Params.GroupId c) syncableID syncableType in
      let groupSyncable := model.Patch groupSyncable patch in
      '(groupSyncable, appErr) ← app (CreateGroupSyncable groupSyncable);
      orFail appErr;;
      mret (StatusCreated, groupSyncable)
  | Some groupSyncable =>
      let groupSyncable := model.setDeleteAt groupSyncable 0 in
      let groupSyncable := model.Patch groupSyncable patch in
      '(groupSyncable, appErr) ← app (UpdateGroupSyncable groupSyncable);
      orFail appErr;;
      mret (StatusCreated, groupSyncable)
  end.

(** [linkGroupSyncable], lines 186-272. *)
Definition linkGroupSyncable (c : Params.t) (r : RequestBody)
  : Prog (Response (option model.GroupSyncable)) :=
  require (RequireGroupId c);;
  require (RequireSyncableId c);;
  let syncableID := Params.SyncableId c in
  require (RequireSyncableType c);;
  let syncableType := Params.SyncableType c in
  patch ←
    match r with
    | ReadAllError msg =>
        Fail (model.NewAppError "Api4.createGroupSyncable" "api.io_error"
                msg StatusBadRequest)
    | UnmarshalError | Unmarshalled None =>
        Fail (SetInvalidParam
                ("Group" +:+ model.GroupSyncableTypeString syncableType))
    | Unmarshalled (Some patch) => mret patch
    end;
  requireLicense "Api4.createGroupSyncable";;
  linkPermissionCheck syncableID syncableType;;
  linkLookupAndPersist c syncableID syncableType patch.

(** [c.App.SessionHasPermissionTo(..., PERMISSION_MANAGE_SYSTEM)] with
    its [c.SetPermissionError]. *)
Definition requireManageSystem : Prog unit :=
  allowed ← app (SessionHasPermissionTo model.PERMISSION_MANAGE_SYSTEM);
  if negb allowed
  then Fail (SetPermissionError model.PERMISSION_MANAGE_SYSTEM)
  else mret ().

(** [patchGroupSyncable], lines 354-417.  The record the lookup answered is
    not tested for nil (lines 396-404).  [groupSyncable.Patch] writes the
    fields present in the patch, so through a nil record it dereferences nil
    when the patch holds a field and does nothing when it holds none; the
    nil record then goes to [UpdateGroupSyncable]. *)
Definition patchGroupSyncable (c : Params.t) (r : RequestBody)
  : Prog (Response (option model.GroupSyncable)) :=
  require (RequireGroupId c);;
  require (RequireSyncableId c);;
  let syncableID := Params.SyncableId c in
  require (RequireSyncableType c);;
  let syncableType := Params.SyncableType c in
  patch ←
    match r with
    | ReadAllError msg =>
        Fail (model.NewAppError "Api4.patchGroupSyncable" "api.io_error"
                msg StatusBadRequest)
    | UnmarshalError | Unmarshalled None =>
        Fail (SetInvalidParam
                ("Group[" +:+ model.GroupSyncableTypeString syncableType
                 +:+ "]Patch"))
    | Unmarshalled (Some patch) => mret patch
    end;
  requireLicense "Api4.patchGroupSyncable";;
  requireManageSystem;;
  '(groupSyncable, appErr) ←
    app (GetGroupSyncable (Params.GroupId c) syncableID syncableType);
  orFail appErr;;
  match groupSyncable with
  | None =>
      match model.PatchAutoAdd patch with
      | Some _ => Panic
      | None =>
          '(groupSyncable, appErr) ← app UpdateGroupSyncableNil;
          orFail appErr;;
          mret (StatusOK, groupSyncable)
      end
  | Some groupSyncable =>
      let groupSyncable := model.Patch groupSyncable patch in
      '(groupSyncable, appErr) ← app (UpdateGroupSyncable groupSyncable);
      orFail appErr;;
      mret (StatusOK, groupSyncable)
  end.

(** [unlinkGroupSyncable], lines 419-454. *)
Definition unlinkGroupSyncable (c : Params.t) : Prog (Response unit) :=
  require (RequireGroupId c);;
  require (RequireSyncableId c);;
  let syncableID := Params.SyncableId c in
  require (RequireSyncableType c);;
  let syncableType := Params.SyncableType c in
  requireLicense "Api4.unlinkGroupSyncable";;
  requireManageSystem;;
  '(_, err) ←
    app (DeleteGroupSyncable (Params.GroupId c) syncableID syncableType);
  orFail err;;
  mret (StatusOK, ()).

(** [getGroupsByTeam], lines 524-569. *)
Definition getGroupsByTeam (c : Params.t) : Prog (Response (list model.Group)) :=
  require (RequireTeamId c);;
  requireLicense "Api4.getGroupsByTeam";;
  allowed ← app (SessionHasPermissionToTeam (Params.TeamId c)
                   model.PERMISSION_MANAGE_TEAM);
  (if negb allowed
   then Fail (SetPermissionError model.PERMISSION_MANAGE_TEAM)
   else mret ());;
  let opts := emptyOpts in
  let opts :=
    if (1 <? String.length (Params.Q c))%nat
    then setQ opts (Params.Q c) else opts in
  let opts :=
    if Params.IncludeMemberCount c
    then setIncludeMemberCount opts true else opts in
  '(groups, err) ←
    match Params.Paginate c with
    | Some false => app (GetGroupsByTeam (Params.TeamId c) None None opts)
    | _ => app (GetGroupsByTeam (Params.TeamId c) (Some (Params.Page c))
                  (Some (Params.PerPage c)) opts)
    end;
  orFail err;;
  mret (StatusOK, groups).

End Handlers.

(** ** An in-memory application *)

Definition StatusNotFound : Z := 404.
Definition StatusInternalServerError : Z := 500.

(** The key of a record in the syncable store. *)
Definition TripleKey : Type := (string * string * model.GroupSyncableType)%type.

Definition keyOf (gs : model.GroupSyncable) : TripleKey :=
  (model.GroupId gs, model.SyncableId gs, model.Type' gs).

(** Modelled from the spec: the application behind [c.App] (license,
    access policy, SyncableStore, GroupStore) is not in [group.go].  The
    syncable store holds at most one record per triple, tombstones
    included; the group store answers a search with its matching groups in
    a fixed order. *)
Record World : Type := {
  wLicense : option model.License;
  wHasPermissionTo : model.Permission -> bool;
  wHasPermissionToTeam : string -> model.Permission -> bool;
  wHasPermissionToChannel : string -> model.Permission -> bool;
  wSyncables : gmap TripleKey model.GroupSyncable;
  wGroups : model.GroupSearchOpts -> list model.Group;
  wTeamGroups : string -> model.GroupSearchOpts -> list model.Group;
  wNow : Z
}.

Definition setSyncables (w : World) (m : gmap TripleKey model.GroupSyncable)
  : World :=
  {| wLicense := wLicense w; wHasPermissionTo := wHasPermissionTo w;
     wHasPermissionToTeam := wHasPermissionToTeam w;
     wHasPermissionToChannel := wHasPermissionToChannel w;
     wSyncables := m; wGroups := wGroups w; wTeamGroups := wTeamGroups w;
     wNow := wNow w |}.

(** The clock moves between requests. *)
Definition atTime (now : Z) (w : World) : World :=
  {| wLicense := wLicense w; wHasPermissionTo := wHasPermissionTo w;
     wHasPermissionToTeam := wHasPermissionToTeam w;
     wHasPermissionToChannel := wHasPermissionToChannel w;
     wSyncables := wSyncables w; wGroups := wGroups w;
     wTeamGroups := wTeamGroups w; wNow := now |}.

Definition setCreateAt (gs : model.GroupSyncable) (v : Z) : model.GroupSyncable :=
  {| model.GroupId := model.GroupId gs; model.SyncableId := model.SyncableId gs;
     model.AutoAdd := model.AutoAdd gs; model.CreateAt := v;
     model.DeleteAt := model.DeleteAt gs; model.Type' := model.Type' gs |}.

(** Modelled from the spec: the store's not-found error; its detail is
    the text of [sql.ErrNoRows]. *)
Definition notFoundError (where_ : string) : model.AppError :=
  model.NewAppError where_ "store.sql_group.no_rows" ErrNoRows StatusNotFound.

(** Modelled from the spec: a create that would break the one-record-per-
    triple invariant is refused by the store. *)
Definition uniqueError : model.AppError :=
  model.NewAppError "SqlGroupStore.GroupCreateGroupSyncable"
    "store.sql_group.unique_constraint" "unique constraint"
    StatusInternalServerError.

(** Modelled from the spec: Find returns the record of the triple,
    tombstoned or not, or the not-found error. *)
Definition storeFind (w : World) (k : TripleKey) : Result model.GroupSyncable :=
  match wSyncables w !! k with
  | Some gs => (Some gs, None)
  | None => (None, Some (notFoundError "SqlGroupStore.GroupGetGroupSyncable"))
  end.

(** Modelled from the spec: Create persists the record with a freshly
    assigned creation timestamp. *)
Definition storeCreate (w : World) (gs : model.GroupSyncable)
  : Result model.GroupSyncable * World :=
  match wSyncables w !! keyOf gs with
  | Some _ => ((None, Some uniqueError), w)
  | None =>
      let gs' := setCreateAt gs (wNow w) in
      ((Some gs', None), setSyncables w (<[keyOf gs := gs']> (wSyncables w)))
  end.

(** Modelled from the spec: Update replaces the record of the triple and
    fails with not-found when there is none. *)
Definition storeUpdate (w : World) (gs : model.GroupSyncable)
  : Result model.GroupSyncable * World :=
  match wSyncables w !! keyOf gs with
  | Some _ =>
      ((Some gs, None), setSyncables w (<[keyOf gs := gs]> (wSyncables w)))
  | None =>
      ((None, Some (notFoundError "SqlGroupStore.GroupUpdateGroupSyncable")), w)
  end.

(** Modelled from the spec: Delete tombstones the record ([deleteAt] set to
    the current time); for a missing or already tombstoned record it reports
    the not-found error. *)
Definition storeDelete (w : World) (k : TripleKey)
  : Result model.GroupSyncable * World :=
  match wSyncables w !! k with
  | Some gs =>
      if (model.DeleteAt gs =? 0)%Z
      then
        let gs' := model.setDeleteAt gs (wNow w) in
        ((Some gs', None), setSyncables w (<[k := gs']> (wSyncables w)))
      else
        ((None, Some (notFoundError "SqlGroupStore.GroupDeleteGroupSyncable")), w)
  | None =>
      ((None, Some (notFoundError "SqlGroupStore.GroupDeleteGroupSyncable")), w)
  end.

(** Modelled from the spec: page [page] of size [perPage] of a sequence;
    empty when the page is beyond range. *)
Definition pageOf {A : Type} (l : list A) (page perPage : Z) : list A :=
  take (Z.to_nat perPage) (drop (Z.to_nat page * Z.to_nat perPage) l).

(** Modelled from the spec: without both bounds the full result comes
    back. *)
Definition pageOfOpt {A : Type} (l : list A) (page perPage : option Z) : list A :=
  match page, perPage with
  | Some p, Some n => pageOf l p n
  | _, _ => l
  end.

#[global] Instance World_App : App World := {|
  handle X call w :=
    match call in AppCall X return X * World with
    | License => (wLicense w, w)
    | SessionHasPermissionTo p => (wHasPermissionTo w p, w)
    | SessionHasPermissionToTeam teamId p => (wHasPermissionToTeam w teamId p, w)
    | SessionHasPermissionToChannel channelId p =>
        (wHasPermissionToChannel w channelId p, w)
    | GetGroupSyncable groupId syncableId t =>
        (storeFind w (groupId, syncableId, t), w)
    | CreateGroupSyncable gs => storeCreate w gs
    | UpdateGroupSyncable gs => storeUpdate w gs
    | UpdateGroupSyncableNil =>
        (* no record, so no triple to replace *)
        ((None, Some (notFoundError "SqlGroupStore.GroupUpdateGroupSyncable")),
         w)
    | DeleteGroupSyncable groupId syncableId t =>
        storeDelete w (groupId, syncableId, t)
    | GetGroupsPage page perPage opts =>
        ((pageOf (wGroups w opts) page perPage, None), w)
    | GetGroupsByTeam teamId page perPage opts =>
        ((pageOfOpt (wTeamGroups w teamId opts) page perPage, None), w)
    end
|}.

(** Modelled from the spec: a malformed identifier is an invalid-argument
    error; identifiers are 26 characters long (the length [getGroups]
    tests for). *)
Definition requireId (name id : string) : option model.AppError :=
  if (String.length id =? 26)%nat then None
  else Some (model.NewAppError "Context"
               "api.context.invalid_url_param.app_error" name StatusBadRequest).

#[global] Instance Checks26 : ParamChecks := {|
  RequireGroupId c := requireId "group_id" (Params.GroupId c);
  RequireSyncableId c := requireId "syncable_id" (Params.SyncableId c);
  RequireSyncableType c := None;
  RequireTeamId c := requireId "team_id" (Params.TeamId c)
|}.

(** ** Running programs *)

Definition isDone {R : Type} (o : Outcome R) : bool :=
  match o with
  | Done _ => true
  | _ => false
  end.

(** Sequencing of runs: the second part starts where the first one ended,
    unless the first one failed or panicked. *)
Definition andThen {S A B : Type} (r : Run S A) (k : A -> S -> Run S B)
  : Run S B :=
  match outcome r with
  | Done a =>
      let r2 := k a (final r) in
      mkRun (outcome r2) (final r2) (trace r ++ trace r2)
  | Failed e => mkRun (Failed e) (final r) (trace r)
  | Panicked => mkRun Panicked (final r) (trace r)
  end.

(** [appErr != nil && appErr.DetailedError != sql.ErrNoRows.Error()],
    line 236. *)
Definition lookupAborts (appErr : option model.AppError) : bool :=
  match appErr with
  | Some err => negb (String.eqb (model.DetailedError err) ErrNoRows)
  | None => false
  end.

(** What the handler makes of the answer of Create or Update, lines
    249-252 and 257-260, and of the write of the response. *)
Definition persisted (status : Z) (res : Result model.GroupSyncable)
  : Outcome (Response (option model.GroupSyncable)) :=
  match res.2 with
  | Some err => Failed err
  | None => Done (status, res.1)
  end.

(** ** Link *)

(** The two gates of [linkGroupSyncable], lines 217-233: the license, then
    the permission of the syncable's type. *)
Definition linkGates (c : Params.t) : Prog unit :=
  requireLicense "Api4.createGroupSyncable";;
  linkPermissionCheck (Params.SyncableId c) (Params.SyncableType c).

(** The parameters pass the [c.Require...] checks of the link, unlink and
    patch handlers. *)
Definition triplePasses {checks : ParamChecks} (c : Params.t) : Prop :=
  RequireGroupId c = None /\ RequireSyncableId c = None /\
  RequireSyncableType c = None.

(** ** Fixtures: identifiers, a licensed world, requests *)

Definition idG1 : string := "g1aaaaaaaaaaaaaaaaaaaaaaaa".
Definition idT1 : string := "t1aaaaaaaaaaaaaaaaaaaaaaaa".
Definition idC1 : string := "c1aaaaaaaaaaaaaaaaaaaaaaaa".

Definition group (name : string) : model.Group :=
  {| model.GroupIdent := name; model.DisplayName := name;
     model.RemoteId := name; model.MemberCount := None;
     model.GroupDeleteAt := 0 |}.

(** A licensed world with an empty syncable store whose session holds
    every permission. *)
Definition world0 : World :=
  {| wLicense := Some {| model.LDAPGroups := true |};
     wHasPermissionTo := fun _ => true;
     wHasPermissionToTeam := fun _ _ => true;
     wHasPermissionToChannel := fun _ _ => true;
     wSyncables := ∅;
     wGroups := fun _ => [group "a"; group "b"; group "c"];
     wTeamGroups := fun _ _ => [group "a"; group "b"; group "c"];
     wNow := 100 |}.

(** The same world for a session without any permission. *)
Definition worldDenied : World :=
  {| wLicense := Some {| model.LDAPGroups := true |};
     wHasPermissionTo := fun _ => false;
     wHasPermissionToTeam := fun _ _ => false;
     wHasPermissionToChannel := fun _ _ => false;
     wSyncables := ∅;
     wGroups := fun _ => [group "a"; group "b"; group "c"];
     wTeamGroups := fun _ _ => [group "a"; group "b"; group "c"];
     wNow := 100 |}.

Definition request (syncableId : string) (t : model.GroupSyncableType)
  : Params.t :=
  {| Params.GroupId := idG1; Params.SyncableId := syncableId;
     Params.SyncableType := t; Params.TeamId := idT1;
     Params.ChannelId := idC1; Params.Q := "";
     Params.NotAssociatedToTeam := ""; Params.IncludeMemberCount := false;
     Params.Paginate := None; Params.Page := 0; Params.PerPage := 60 |}.

Definition autoAdd (b : bool) : model.GroupSyncablePatch :=
  {| model.PatchAutoAdd := Some b |}.

Definition licenseEvents : list Event :=
  [Ev License (Some {| model.LDAPGroups := true |});
   Ev License (Some {| model.LDAPGroups := true |})].

(** ** Observations on runs *)

(** The application changes state only in its writes. *)
Definition pureReads {S : Type} {theApp : App S} : Prop :=
  forall (X : Type) (call : AppCall X) (s : S),
    isWriteCall call = false -> (handle call s).2 = s.

Definition isCreateOrUpdate (ev : Event) : bool := isCreate ev || isUpdate ev.

Definition creates (tr : list Event) : nat :=
  length (filter (fun ev => isCreate ev = true) tr).

Definition updates (tr : list Event) : nat :=
  length (filter (fun ev => isUpdate ev = true) tr).

Definition permissionChecks (tr : list Event) : nat :=
  length (filter (fun ev => isPermissionCheck ev = true) tr).

(** The lookup of the triple a request names. *)
Definition lookupOf (c : Params.t) : AppCall (Result model.GroupSyncable) :=
  GetGroupSyncable (Params.GroupId c) (Params.SyncableId c)
    (Params.SyncableType c).

Definition brokenStoreError : model.AppError :=
  model.NewAppError "SqlGroupStore.GroupGetGroupSyncable"
    "store.select_error" "connection refused" StatusInternalServerError.

(** An application that answers like [world0] except that its lookup
    fails with a storage error. *)
Definition BrokenLookup : App World := {|
  handle X call w :=
    match call in AppCall X return X * World with
    | GetGroupSyncable _ _ _ => ((None, Some brokenStoreError), w)
    | other => handle (App := World_App) other w
    end
|}.

(** ** Gates and observations of the other handlers *)

(** What a handler makes of a store answer that carries a value and an
    error: [c.Err], or the value written with the given status. *)
Definition answered {A B : Type} (status : Z) (value : B)
    (res : A * option model.AppError) : Outcome (Response B) :=
  match res.2 with
  | Some err => Failed err
  | None => Done (status, value)
  end.

(** The search options [getGroups] and [getGroupsByTeam] build from the
    request, lines 79-93 and 543-549, given what became of
    NotAssociatedToTeam. *)
Definition searchOptsOf (c : Params.t) (notAssociatedToTeam : option string)
  : model.GroupSearchOpts :=
  {| model.Q := if (1 <? String.length (Params.Q c))%nat
                then Some (Params.Q c) else None;
     model.NotAssociatedToTeam := notAssociatedToTeam;
     model.IncludeMemberCount := Params.IncludeMemberCount c |}.

(** The page bounds [getGroupsByTeam] hands to the store, lines 551-555. *)
Definition pageBoundsOf (c : Params.t) : option Z * option Z :=
  match Params.Paginate c with
  | Some false => (None, None)
  | _ => (Some (Params.Page c), Some (Params.PerPage c))
  end.

(** The searches by team a trace holds: team, page bounds and options. *)
Fixpoint teamSearches (tr : list Event)
  : list (string * option Z * option Z * model.GroupSearchOpts) :=
  match tr with
  | [] => []
  | Ev call _ :: tr' =>
      match call with
      | GetGroupsByTeam teamId page perPage opts =>
          (teamId, page, perPage, opts) :: teamSearches tr'
      | _ => teamSearches tr'
      end
  end.

(** The groups a listing handler wrote, none when it wrote no response. *)
Definition bodyOf (o : Outcome (Response (list model.Group))) : list model.Group :=
  match o with
  | Done (_, groups) => groups
  | _ => []
  end.

(** The same request with other paging parameters. *)
Definition withPaging (c : Params.t) (paginate : option bool) (page perPage : Z)
  : Params.t :=
  {| Params.GroupId := Params.GroupId c; Params.SyncableId := Params.SyncableId c;
     Params.SyncableType := Params.SyncableType c; Params.TeamId := Params.TeamId c;
     Params.ChannelId := Params.ChannelId c; Params.Q := Params.Q c;
     Params.NotAssociatedToTeam := Params.NotAssociatedToTeam c;
     Params.IncludeMemberCount := Params.IncludeMemberCount c;
     Params.Paginate := paginate; Params.Page := page; Params.PerPage := perPage |}.

(** The same request with other search parameters. *)
Definition withSearch (c : Params.t) (q notAssociatedToTeam : string)
    (includeMemberCount : bool) : Params.t :=
  {| Params.GroupId := Params.GroupId c; Params.SyncableId := Params.SyncableId c;
     Params.SyncableType := Params.SyncableType c; Params.TeamId := Params.TeamId c;
     Params.ChannelId := Params.ChannelId c; Params.Q := q;
     Params.NotAssociatedToTeam := notAssociatedToTeam;
     Params.IncludeMemberCount := includeMemberCount;
     Params.Paginate := Params.Paginate c; Params.Page := Params.Page c;
     Params.PerPage := Params.PerPage c |}.

(** A licensed world whose session holds the private-channel permission on
    every channel and no other permission. *)
Definition worldPrivateOnly : World :=
  {| wLicense := Some {| model.LDAPGroups := true |};
     wHasPermissionTo := fun _ => false;
     wHasPermissionToTeam := fun _ _ => false;
     wHasPermissionToChannel := fun _ p =>
       match p with
       | model.PERMISSION_MANAGE_PRIVATE_CHANNEL_MEMBERS => true
       | _ => false
       end;
     wSyncables := ∅;
     wGroups := fun _ => [];
     wTeamGroups := fun _ _ => [];
     wNow := 100 |}.

(** The search the specification describes for ListGroupsForTeam: every
    option the request carries reaches the store, the team to exclude
    included. *)
Definition specifiedSearchOpts (c : Params.t) : model.GroupSearchOpts :=
  {| model.Q := if decide (Params.Q c = "") then None else Some (Params.Q c);
     model.NotAssociatedToTeam :=
       if decide (Params.NotAssociatedToTeam c = "") then None
       else Some (Params.NotAssociatedToTeam c);
     model.IncludeMemberCount := Params.IncludeMemberCount c |}.

(** The license check passes in this world. *)
Definition licensed (w : World) : Prop :=
  wLicense w = Some {| model.LDAPGroups := true |}.

(** The groups [getGroupsByTeam] answers a request with in a world. *)
Definition teamGroupsOf (c : Params.t) (w : World) : list model.Group :=
  bodyOf (outcome (run (getGroupsByTeam c) w)).

(** The paginated traversal of pages 0 to [pages - 1] of a team's groups,
    one request per page, the answers concatenated in page order. *)
Definition traversal (c : Params.t) (w : World) (paginate : option bool)
    (perPage : Z) (pages : nat) : list model.Group :=
  concat (map (fun i =>
                 teamGroupsOf (withPaging c paginate (Z.of_nat i) perPage) w)
            (seq 0 pages)).

(** The session may link the syncable of the request: the permission
    [linkPermissionCheck] asks for. *)
Definition linkAllowed (w : World) (c : Params.t) : Prop :=
  match Params.SyncableType c with
  | model.GroupSyncableTypeTeam =>
      wHasPermissionToTeam w (Params.SyncableId c) model.PERMISSION_MANAGE_TEAM
  | model.GroupSyncableTypeChannel =>
      wHasPermissionToChannel w (Params.SyncableId c)
        model.PERMISSION_MANAGE_PUBLIC_CHANNEL_MEMBERS
  end = true.

(** The triple a request addresses. *)
Definition tripleOf (c : Params.t) : TripleKey :=
  (Params.GroupId c, Params.SyncableId c, Params.SyncableType c).

(** Link with patch [p], unlink at time [t1], link again with patch [p2]
    at time [t2]: three requests for the same triple, each run in the
    world the one before left. *)
Definition linkUnlinkLink (c : Params.t) (p p2 : model.GroupSyncablePatch)
    (t1 t2 : Z) (w : World) : Run World (Response (option model.GroupSyncable)) :=
  let w1 := final (run (linkGroupSyncable c (Unmarshalled (Some p))) w) in
  let w2 := final (run (unlinkGroupSyncable c) (atTime t1 w1)) in
  run (linkGroupSyncable c (Unmarshalled (Some p2))) (atTime t2 w2).

(** ** The remaining handlers *)

Section SyncableReads.

Context {checks : ParamChecks}.

(** [getGroupSyncable], lines 274-315. *)
Definition getGroupSyncable (c : Params.t)
  : Prog (Response (option model.GroupSyncable)) :=
  require (RequireGroupId c);;
  require (RequireSyncableId c);;
  let syncableID := Params.SyncableId c in
  require (RequireSyncableType c);;
  let syncableType := Params.SyncableType c in
  requireLicense "Api4.getGroupSyncable";;
  requireManageSystem;;
  '(groupSyncable, err) ←
    app (GetGroupSyncable (Params.GroupId c) syncableID syncableType);
  orFail err;;
  mret (StatusOK, groupSyncable).

End SyncableReads.

(** The calls on [c.App] that reach the group store: groups, the syncables
    of a group, members.  [model.User] is declared in the model package and
    [group.go] only passes its values on, so the user type is a parameter.
    [UpdateGroupNil] is [UpdateGroup] handed the nil pointer. *)
Inductive GroupCall (User : Type) : Type -> Type :=
| GetGroup (groupId : string) : GroupCall User (Result model.Group)
| UpdateGroup (group : model.Group) : GroupCall User (Result model.Group)
| UpdateGroupNil : GroupCall User (Result model.Group)
| GetGroupSyncables (groupId : string) (t : model.GroupSyncableType)
    : GroupCall User (list model.GroupSyncable * option model.AppError)
| GetGroupMemberUsersPage (groupId : string) (page perPage : Z)
    : GroupCall User (list User * Z * option model.AppError)
| GetGroupsByChannel (channelId : string) (page perPage : Z)
    : GroupCall User (list model.Group * option model.AppError).

Arguments GetGroup {User} groupId.
Arguments UpdateGroup {User} group.
Arguments UpdateGroupNil {User}.
Arguments GetGroupSyncables {User} groupId t.
Arguments GetGroupMemberUsersPage {User} groupId page perPage.
Arguments GetGroupsByChannel {User} channelId page perPage.

(** What a handler of the group store did: a call of the kind the linkage
    handlers make, or a call on the group store, with its answer. *)
Inductive ApiEvent (User : Type) : Type :=
| OfApp (ev : Event)
| OfGroups {X : Type} (call : GroupCall User X) (answer : X).

Arguments OfApp {User} ev.
Arguments OfGroups {User X} call answer.

(** Handler programs that also call the group store. *)
Inductive Api (User R : Type) : Type :=
| Return (r : R)
| Abort (e : model.AppError)
| Crash
| AppStep {X : Type} (call : AppCall X) (k : X -> Api User R)
| GroupStep {X : Type} (call : GroupCall User X) (k : X -> Api User R).

Arguments Return {User R} r.
Arguments Abort {User R} e.
Arguments Crash {User R}.
Arguments AppStep {User R X} call k.
Arguments GroupStep {User R X} call k.

Fixpoint bindApi {User A B : Type} (p : Api User A) (f : A -> Api User B)
  : Api User B :=
  match p with
  | Return a => f a
  | Abort e => Abort e
  | Crash => Crash
  | AppStep call k => AppStep call (fun x => bindApi (k x) f)
  | GroupStep call k => GroupStep call (fun x => bindApi (k x) f)
  end.

#[global] Instance Api_ret {User : Type} : MRet (Api User) := @Return User.
#[global] Instance Api_bind {User : Type} : MBind (Api User) :=
  fun A B f p => bindApi p f.

(** A program of the linkage handlers as part of one of these. *)
Fixpoint liftProg {User R : Type} (p : Prog R) : Api User R :=
  match p with
  | Ret r => Return r
  | Fail e => Abort e
  | Panic => Crash
  | Call call k => AppStep call (fun x => liftProg (k x))
  end.

Definition groups {User X : Type} (call : GroupCall User X) : Api User X :=
  GroupStep call Return.

(** [if err != nil { c.Err = err; return }]. *)
Definition orAbort {User : Type} (err : option model.AppError) : Api User unit :=
  match err with
  | Some e => Abort e
  | None => mret ()
  end.

(** The group store behind [c.App], by state passing. *)
Class GroupApp (User S : Type) : Type := {
  handleGroups : forall X : Type, GroupCall User X -> S -> X * S
}.

Arguments handleGroups {User S GroupApp X} call s.

Record ApiRun (User S R : Type) : Type := mkApiRun {
  apiOutcome : Outcome R;
  apiFinal : S;
  apiTrace : list (ApiEvent User)
}.

Arguments mkApiRun {User S R} apiOutcome apiFinal apiTrace.
Arguments apiOutcome {User S R} a.
Arguments apiFinal {User S R} a.
Arguments apiTrace {User S R} a.

Definition apiLogged {User S R : Type} (ev : ApiEvent User)
    (r : ApiRun User S R) : ApiRun User S R :=
  mkApiRun (apiOutcome r) (apiFinal r) (ev :: apiTrace r).

Fixpoint runApi {User S R : Type} {theApp : App S}
    {theGroups : GroupApp User S} (p : Api User R) (s : S) : ApiRun User S R :=
  match p with
  | Return r => mkApiRun (Done r) s []
  | Abort e => mkApiRun (Failed e) s []
  | Crash => mkApiRun Panicked s []
  | AppStep call k =>
      let '(x, s') := handle call s in
      apiLogged (OfApp (Ev call x)) (runApi (k x) s')
  | GroupStep call k =>
      let '(x, s') := handleGroups call s in
      apiLogged (OfGroups call x) (runApi (k x) s')
  end.

(** [c.RequireChannelId()], declared with the context. *)
Class ChannelCheck : Type := {
  RequireChannelId : Params.t -> option model.AppError
}.

Section GroupHandlers.

Context {checks : ParamChecks} {channelCheck : ChannelCheck}.
Context {User GroupPatch : Type}.

(** [getGroup], lines 110-139. *)
Definition getGroup (c : Params.t) : Api User (Response (option model.Group)) :=
  liftProg (require (RequireGroupId c));;
  liftProg (requireLicense "Api4.getGroup");;
  liftProg requireManageSystem;;
  '(group, err) ← groups (GetGroup (Params.GroupId c));
  orAbort err;;
  mret (StatusOK, group).

(** [patchGroup], lines 141-184.  [groupPatch] is what
    [model.GroupPatchFromJson(r.Body)] returned, nil when the body does not
    decode.  [group.Patch] is declared in the model package: [Patch] is what
    it makes of a group, and [writesField] tells whether with this patch it
    writes a field of its group.  The group [GetGroup] answered is not tested
    for nil (lines 163-171): through a nil group a patch that writes a field
    dereferences nil, any other leaves it nil, and the nil group goes to
    [UpdateGroup]. *)
Definition patchGroup (Patch : model.Group -> GroupPatch -> model.Group)
    (writesField : GroupPatch -> bool)
    (c : Params.t) (groupPatch : option GroupPatch)
  : Api User (Response (option model.Group)) :=
  liftProg (require (RequireGroupId c));;
  groupPatch ←
    match groupPatch with
    | None => Abort (SetInvalidParam "group")
    | Some groupPatch => mret groupPatch
    end;
  liftProg (requireLicense "Api4.patchGroup");;
  liftProg requireManageSystem;;
  '(group, err) ← groups (GetGroup (Params.GroupId c));
  orAbort err;;
  match group with
  | None =>
      if writesField groupPatch then Crash
      else
        '(group, err) ← groups UpdateGroupNil;
        orAbort err;;
        mret (StatusOK, group)
  | Some group =>
      let group := Patch group groupPatch in
      '(group, err) ← groups (UpdateGroup group);
      orAbort err;;
      mret (StatusOK, group)
  end.

(** [getGroupSyncables], lines 317-352. *)
Definition getGroupSyncables (c : Params.t)
  : Api User (Response (list model.GroupSyncable)) :=
  liftProg (require (RequireGroupId c));;
  liftProg (require (RequireSyncableType c));;
  let syncableType := Params.SyncableType c in
  liftProg (requireLicense "Api4.getGroupSyncables");;
  liftProg requireManageSystem;;
  '(groupSyncables, err) ←
    groups (GetGroupSyncables (Params.GroupId c) syncableType);
  orAbort err;;
  mret (StatusOK, groupSyncables).

(** [getGroupMembers], lines 456-491: the body holds the members and the
    total member count. *)
Definition getGroupMembers (c : Params.t) : Api User (Response (list User * Z)) :=
  liftProg (require (RequireGroupId c));;
  liftProg (requireLicense "Api4.getGroupMembers");;
  liftProg requireManageSystem;;
  '(members, count, err) ←
    groups (GetGroupMemberUsersPage (Params.GroupId c) (Params.Page c)
              (Params.PerPage c));
  orAbort err;;
  mret (StatusOK, (members, count)).

(** [getGroupsByChannel], lines 493-522. *)
Definition getGroupsByChannel (c : Params.t)
  : Api User (Response (list model.Group)) :=
  liftProg (require (RequireChannelId c));;
  liftProg (requireLicense "Api4.getGroupsByChannel");;
  liftProg requireManageSystem;;
  '(groups_, err) ←
    groups (GetGroupsByChannel (Params.ChannelId c) (Params.Page c)
              (Params.PerPage c));
  orAbort err;;
  mret (StatusOK, groups_).

End GroupHandlers.

(** ** Observations for the remaining properties *)

(** The patch a request body decodes to, if it does. *)
Definition decoded (r : RequestBody) : option model.GroupSyncablePatch :=
  match r with
  | Unmarshalled (Some patch) => Some patch
  | _ => None
  end.

Definition present {A : Type} (o : option A) : bool :=
  match o with
  | Some _ => true
  | None => false
  end.

(** A request for a triple with a body is malformed: one of the three
    parameter checks sets an error, or the body does not decode to a patch. *)
Definition malformed {checks : ParamChecks} (c : Params.t) (r : RequestBody)
  : bool :=
  present (RequireGroupId c) || present (RequireSyncableId c)
  || present (RequireSyncableType c) || negb (present (decoded r)).

(** The error of the license check, lines 72-75 and the like. *)
Definition licenseError (where_ : string) : model.AppError :=
  model.NewAppError where_ "api.ldap_groups.license_error" ""
    StatusNotImplemented.

(** The license check fails from state [s]: there is no license, or the
    license read for the feature flag has LDAP groups off.  [s1] and [tr]
    are the state and the reads after the check. *)
Definition unlicensedAt {S : Type} {theApp : App S} (s s1 : S)
    (tr : list Event) : Prop :=
  (handle License s = (None, s1) /\ tr = [Ev License None])
  \/ (exists (l l2 : model.License) (s' : S),
         handle License s = (Some l, s')
         /\ handle License s' = (Some l2, s1)
         /\ model.LDAPGroups l2 = false
         /\ tr = [Ev License (Some l); Ev License (Some l2)]).

(** A world without a license. *)
Definition worldUnlicensed : World :=
  {| wLicense := None;
     wHasPermissionTo := fun _ => true;
     wHasPermissionToTeam := fun _ _ => true;
     wHasPermissionToChannel := fun _ _ => true;
     wSyncables := ∅;
     wGroups := fun _ => [];
     wTeamGroups := fun _ _ => [];
     wNow := 100 |}.

(** The team [getGroups] excludes, line 83: NotAssociatedToTeam when it is
    26 long. *)
Definition teamFilterOf (c : Params.t) : option string :=
  if (String.length (Params.NotAssociatedToTeam c) =? 26)%nat
  then Some (Params.NotAssociatedToTeam c) else None.

(** The permission call of the link switch, lines 222-233, and the
    permission its error names. *)
Definition linkCheckOf (c : Params.t) : AppCall bool :=
  match Params.SyncableType c with
  | model.GroupSyncableTypeTeam =>
      SessionHasPermissionToTeam (Params.SyncableId c)
        model.PERMISSION_MANAGE_TEAM
  | model.GroupSyncableTypeChannel =>
      SessionHasPermissionToChannel (Params.SyncableId c)
        model.PERMISSION_MANAGE_PUBLIC_CHANNEL_MEMBERS
  end.

Definition linkDenialOf (t : model.GroupSyncableType) : model.Permission :=
  match t with
  | model.GroupSyncableTypeTeam => model.PERMISSION_MANAGE_TEAM
  | model.GroupSyncableTypeChannel =>
      model.PERMISSION_MANAGE_PRIVATE_CHANNEL_MEMBERS
  end.

(** ** Running the group-store handlers *)

(** A run that goes on where the run [r] ended well. *)
Definition andThenApi {User S A B : Type} (r : ApiRun User S A)
    (k : A -> S -> ApiRun User S B) : ApiRun User S B :=
  match apiOutcome r with
  | Done a =>
      let r2 := k a (apiFinal r) in
      mkApiRun (apiOutcome r2) (apiFinal r2) (apiTrace r ++ apiTrace r2)
  | Failed e => mkApiRun (Failed e) (apiFinal r) (apiTrace r)
  | Panicked => mkApiRun Panicked (apiFinal r) (apiTrace r)
  end.

(** The run of a linkage program seen as a run of these handlers. *)
Definition ofRun {User S R : Type} (r : Run S R) : ApiRun User S R :=
  mkApiRun (outcome r) (final r) (map OfApp (trace r)).

(** The calls of a trace that went to the linkage application. *)
Fixpoint appEvents {User : Type} (tr : list (ApiEvent User)) : list Event :=
  match tr with
  | [] => []
  | OfApp ev :: tr' => ev :: appEvents tr'
  | OfGroups _ _ :: tr' => appEvents tr'
  end.

(** The number of group-store calls in a trace, and of [UpdateGroup] calls
    among them. *)
Fixpoint groupCalls {User : Type} (tr : list (ApiEvent User)) : nat :=
  match tr with
  | [] => 0
  | OfApp _ :: tr' => groupCalls tr'
  | OfGroups _ _ :: tr' => Datatypes.S (groupCalls tr')
  end.

Definition isUpdateGroup {User X : Type} (call : GroupCall User X) : bool :=
  match call with
  | UpdateGroup _ => true
  | UpdateGroupNil => true
  | _ => false
  end.

Fixpoint groupUpdates {User : Type} (tr : list (ApiEvent User)) : nat :=
  match tr with
  | [] => 0
  | OfApp _ :: tr' => groupUpdates tr'
  | OfGroups call _ :: tr' =>
      ((if isUpdateGroup call then 1 else 0) + groupUpdates tr')%nat
  end.

(** ** An in-memory group store *)

(** Modelled from the spec: the GroupStore collaborator is not in
    [group.go].  It holds groups by identifier, the members of a group in a
    fixed order and the groups of a channel; users are their identifiers. *)
Record Directory : Type := {
  dWorld : World;
  dGroups : gmap string model.Group;
  dMembers : gmap string (list string);
  dChannelGroups : string -> list model.Group
}.

Definition setWorld (d : Directory) (w : World) : Directory :=
  {| dWorld := w; dGroups := dGroups d; dMembers := dMembers d;
     dChannelGroups := dChannelGroups d |}.

Definition setGroups (d : Directory) (m : gmap string model.Group) : Directory :=
  {| dWorld := dWorld d; dGroups := m; dMembers := dMembers d;
     dChannelGroups := dChannelGroups d |}.

#[global] Instance Directory_App : App Directory := {|
  handle X call d :=
    let '(x, w) := handle call (dWorld d) in (x, setWorld d w)
|}.

(** Modelled from the spec: FindById answers the group or not-found;
    an update replaces the group of that identifier; the members page
    comes with the total member count. *)
Definition directoryGet (d : Directory) (groupId : string) : Result model.Group :=
  match dGroups d !! groupId with
  | Some g => (Some g, None)
  | None => (None, Some (notFoundError "SqlGroupStore.GroupGet"))
  end.

Definition directoryUpdate (d : Directory) (g : model.Group)
  : Result model.Group * Directory :=
  match dGroups d !! model.GroupIdent g with
  | Some _ =>
      ((Some g, None), setGroups d (<[model.GroupIdent g := g]> (dGroups d)))
  | None => ((None, Some (notFoundError "SqlGroupStore.GroupUpdate")), d)
  end.

Definition directorySyncables (d : Directory) (groupId : string)
    (t : model.GroupSyncableType) : list model.GroupSyncable :=
  filter (fun gs => model.GroupId gs = groupId /\ model.Type' gs = t)
    (map snd (map_to_list (wSyncables (dWorld d)))).

#[global] Instance Directory_Groups : GroupApp string Directory := {|
  handleGroups X call d :=
    match call in GroupCall _ X return X * Directory with
    | GetGroup groupId => (directoryGet d groupId, d)
    | UpdateGroup g => directoryUpdate d g
    | UpdateGroupNil =>
        (* no group, so no identifier to replace *)
        ((None, Some (notFoundError "SqlGroupStore.GroupUpdate")), d)
    | GetGroupSyncables groupId t => ((directorySyncables d groupId t, None), d)
    | GetGroupMemberUsersPage groupId page perPage =>
        let members := default [] (dMembers d !! groupId) in
        ((pageOf members page perPage, Z.of_nat (length members), None), d)
    | GetGroupsByChannel channelId page perPage =>
        ((pageOf (dChannelGroups d channelId) page perPage, None), d)
    end
|}.

#[global] Instance ChannelCheck26 : ChannelCheck := {|
  RequireChannelId c := requireId "channel_id" (Params.ChannelId c)
|}.

(** A patch of a group that carries a new display name, and its
    application. *)
Definition rename (g : model.Group) (name : string) : model.Group :=
  {| model.GroupIdent := model.GroupIdent g; model.DisplayName := name;
     model.RemoteId := model.RemoteId g; model.MemberCount := model.MemberCount g;
     model.GroupDeleteAt := model.GroupDeleteAt g |}.

(** The directory over a world: group [idG1] with three members, two
    groups on every channel. *)
Definition directoryOver (w : World) : Directory :=
  {| dWorld := w;
     dGroups := {[ idG1 := group idG1 ]};
     dMembers := {[ idG1 := ["u1"; "u2"; "u3"] ]};
     dChannelGroups := fun _ => [group "a"; group "b"] |}.

(** Every record of the store sits under its own triple. *)
Definition wellKeyed (w : World) : Prop :=
  forall (k : TripleKey) (gs : model.GroupSyncable),
    wSyncables w !! k = Some gs -> keyOf gs = k.

(** The record a handler of the syncable store answered with, if it did. *)
Definition recordOf {R : Type}
    (o : Outcome (Response (option R))) : option R :=
  match o with
  | Done (_, r) => r
  | _ => None
  end.

(** ** Routes *)

Inductive Method : Type := GET | PUT | POST | DELETE.

(** [api.BaseRoutes.Groups], [.Channels], [.Teams]. *)
Inductive BaseRoute : Type := Groups | Channels | Teams.

(** A segment of a route template: a literal, [{name:[A-Za-z0-9]+}], or
    [{syncable_type:teams|channels}]. *)
Inductive Segment : Type :=
| Literal (s : string)
| Identifier (name : string)
| SyncableTypeSegment.

Inductive HandlerName : Type :=
| H_getGroups | H_getGroup | H_patchGroup | H_linkGroupSyncable
| H_unlinkGroupSyncable | H_getGroupSyncable | H_getGroupSyncables
| H_patchGroupSyncable | H_getGroupMembers | H_getGroupsByChannel
| H_getGroupsByTeam.

Record Route : Type := {
  routeBase : BaseRoute;
  routePath : list Segment;
  routeMethod : Method;
  routeHandler : HandlerName;
  sessionRequired : bool
}.

(** [InitGroup], lines 21-69, in the order of registration; every handler
    is wrapped in [api.ApiSessionRequired]. *)
Definition InitGroup : list Route :=
  [ {| routeBase := Groups; routePath := []; routeMethod := GET;
       routeHandler := H_getGroups; sessionRequired := true |};
    {| routeBase := Groups; routePath := [Identifier "group_id"];
       routeMethod := GET; routeHandler := H_getGroup;
       sessionRequired := true |};
    {| routeBase := Groups;
       routePath := [Identifier "group_id"; Literal "patch"];
       routeMethod := PUT; routeHandler := H_patchGroup;
       sessionRequired := true |};
    {| routeBase := Groups;
       routePath := [Identifier "group_id"; SyncableTypeSegment;
                     Identifier "syncable_id"; Literal "link"];
       routeMethod := POST; routeHandler := H_linkGroupSyncable;
       sessionRequired := true |};
    {| routeBase := Groups;
       routePath := [Identifier "group_id"; SyncableTypeSegment;
                     Identifier "syncable_id"; Literal "link"];
       routeMethod := DELETE; routeHandler := H_unlinkGroupSyncable;
       sessionRequired := true |};
    {| routeBase := Groups;
       routePath := [Identifier "group_id"; SyncableTypeSegment;
                     Identifier "syncable_id"];
       routeMethod := GET; routeHandler := H_getGroupSyncable;
       sessionRequired := true |};
    {| routeBase := Groups;
       routePath := [Identifier "group_id"; SyncableTypeSegment];
       routeMethod := GET; routeHandler := H_getGroupSyncables;
       sessionRequired := true |};
    {| routeBase := Groups;
       routePath := [Identifier "group_id"; SyncableTypeSegment;
                     Identifier "syncable_id"; Literal "patch"];
       routeMethod := PUT; routeHandler := H_patchGroupSyncable;
       sessionRequired := true |};
    {| routeBase := Groups;
       routePath := [Identifier "group_id"; Literal "members"];
       routeMethod := GET; routeHandler := H_getGroupMembers;
       sessionRequired := true |};
    {| routeBase := Channels;
       routePath := [Identifier "channel_id"; Literal "groups"];
       routeMethod := GET; routeHandler := H_getGroupsByChannel;
       sessionRequired := true |};
    {| routeBase := Teams;
       routePath := [Identifier "team_id"; Literal "groups"];
       routeMethod := GET; routeHandler := H_getGroupsByTeam;
       sessionRequired := true |} ].

Definition Method_eqb (a b : Method) : bool :=
  match a, b with
  | GET, GET | PUT, PUT | POST, POST | DELETE, DELETE => true
  | _, _ => false
  end.

Definition BaseRoute_eqb (a b : BaseRoute) : bool :=
  match a, b with
  | Groups, Groups | Channels, Channels | Teams, Teams => true
  | _, _ => false
  end.

(** [[A-Za-z0-9]]. *)
Definition isAlnum (a : Ascii.ascii) : bool :=
  let n := Ascii.nat_of_ascii a in
  ((48 <=? n) && (n <=? 57) || (65 <=? n) && (n <=? 90)
   || (97 <=? n) && (n <=? 122))%nat.

Fixpoint allAlnum (s : string) : bool :=
  match s with
  | EmptyString => true
  | String a s' => isAlnum a && allAlnum s'
  end.

(** A path segment of a request against a segment of a template; the
    patterns of the templates match whole segments. *)
Definition segmentMatches (p : Segment) (x : string) : bool :=
  match p with
  | Literal s => String.eqb x s
  | Identifier _ => negb (String.eqb x "") && allAlnum x
  | SyncableTypeSegment => String.eqb x "teams" || String.eqb x "channels"
  end.

Fixpoint pathMatches (ps : list Segment) (xs : list string) : bool :=
  match ps, xs with
  | [], [] => true
  | p :: ps', x :: xs' => segmentMatches p x && pathMatches ps' xs'
  | _, _ => false
  end.

Definition routeMatches (b : BaseRoute) (m : Method) (xs : list string)
    (r : Route) : bool :=
  BaseRoute_eqb (routeBase r) b && Method_eqb (routeMethod r) m
  && pathMatches (routePath r) xs.

(** The handlers whose route matches a request: its base route, its method
    and the segments of its path below the base. *)
Definition dispatch (b : BaseRoute) (m : Method) (xs : list string)
  : list HandlerName :=
  map routeHandler (List.filter (routeMatches b m xs) InitGroup).

(** A handler that wrote a response wrote it under status [status]. *)
Definition answersWith {B : Type} (status : Z) (o : Outcome (Response B))
  : Prop :=
  match o with
  | Done (status', _) => status' = status
  | _ => True
  end.

(** * Properties *)

(** ** Running programs: lemmas *)

Section Semantics.

Context {S : Type} {theApp : App S}.

Lemma run_ret {R : Type} (r : R) (s : S) :
  run (mret r) s = mkRun (Done r) s [].
Proof. reflexivity. Qed.

Lemma run_app {X : Type} (call : AppCall X) (s : S) :
  run (app call) s =
  mkRun (Done (handle call s).1) (handle call s).2
    [Ev call (handle call s).1].
Proof.
  unfold app; simpl. destruct (handle call s) as [x s']; reflexivity.
Qed.

Lemma run_bind {A B : Type} (p : Prog A) (f : A -> Prog B) (s : S) :
  run (p ≫= f) s = andThen (run p s) (fun a s' => run (f a) s').
Proof.
  unfold mbind, Prog_bind.
  revert s; induction p as [a | e | | X call k IH]; intros s; simpl.
  - unfold andThen; simpl. destruct (run (f a) s); reflexivity.
  - reflexivity.
  - reflexivity.
  - destruct (handle call s) as [x s']. rewrite IH.
    unfold andThen, logged; simpl.
    destruct (outcome (run (k x) s')); reflexivity.
Qed.

Lemma run_bind_assoc {A B C : Type} (p : Prog A) (f : A -> Prog B)
    (g : B -> Prog C) (s : S) :
  run ((p ≫= f) ≫= g) s = run (p ≫= (fun a => f a ≫= g)) s.
Proof.
  unfold mbind, Prog_bind.
  revert s; induction p as [a | e | | X call k IH]; intros s; simpl;
    try reflexivity.
  destruct (handle call s) as [x s']. rewrite IH. reflexivity.
Qed.

Lemma andThen_done {A B : Type} (a : A) (s1 : S) (tr1 : list Event)
    (k : A -> S -> Run S B) :
  andThen (mkRun (Done a) s1 tr1) k =
  mkRun (outcome (k a s1)) (final (k a s1)) (tr1 ++ trace (k a s1)).
Proof. reflexivity. Qed.

Lemma writes_app (tr1 tr2 : list Event) :
  writes (tr1 ++ tr2) = (writes tr1 + writes tr2)%nat.
Proof. unfold writes. rewrite filter_app, length_app. reflexivity. Qed.

End Semantics.

(** ** Link: how a run splits *)

Section Link.

Context {checks : ParamChecks} {S : Type} {theApp : App S}.

Lemma run_link_split (c : Params.t) (patch : model.GroupSyncablePatch) (s : S) :
  triplePasses c ->
  run (linkGroupSyncable c (Unmarshalled (Some patch))) s =
  andThen (run (linkGates c) s)
    (fun _ s1 =>
       run (linkLookupAndPersist c (Params.SyncableId c)
              (Params.SyncableType c) patch) s1).
Proof.
  intros (Hg & Hi & Ht).
  unfold linkGroupSyncable, linkGates. rewrite Hg, Hi, Ht.
  change (run (requireLicense "Api4.createGroupSyncable" ≫=
            (fun _ => linkPermissionCheck (Params.SyncableId c)
                        (Params.SyncableType c) ≫=
               (fun _ => linkLookupAndPersist c (Params.SyncableId c)
                           (Params.SyncableType c) patch))) s = 
          andThen (run (linkGates c) s)
    (fun _ s1 =>
       run (linkLookupAndPersist c (Params.SyncableId c)
              (Params.SyncableType c) patch) s1)).
  rewrite <- run_bind_assoc. apply run_bind.
Qed.

Lemma run_lookup_abort (c : Params.t) (patch : model.GroupSyncablePatch)
    (s1 s2 : S) (found : option model.GroupSyncable) (err : model.AppError) :
  handle (GetGroupSyncable (Params.GroupId c) (Params.SyncableId c)
            (Params.SyncableType c)) s1 = ((found, Some err), s2) ->
  lookupAborts (Some err) = true ->
  run (linkLookupAndPersist c (Params.SyncableId c)
         (Params.SyncableType c) patch) s1 =
  mkRun (Failed err) s2
    [Ev (GetGroupSyncable (Params.GroupId c) (Params.SyncableId c)
           (Params.SyncableType c)) (found, Some err)].
Proof.
  intros Hget Hab. unfold linkLookupAndPersist; simpl.
  rewrite Hget; simpl. simpl in Hab. rewrite Hab. reflexivity.
Qed.

Lemma run_lookup_create (c : Params.t) (patch : model.GroupSyncablePatch)
    (s1 s2 s3 : S) (appErr : option model.AppError)
    (res : Result model.GroupSyncable) :
  let get := GetGroupSyncable (Params.GroupId c) (Params.SyncableId c)
               (Params.SyncableType c) in
  let gs := model.Patch
              (newGroupSyncable (Params.GroupId c) (Params.SyncableId c)
                 (Params.SyncableType c)) patch in
  handle get s1 = ((None, appErr), s2) ->
  lookupAborts appErr = false ->
  handle (CreateGroupSyncable gs) s2 = (res, s3) ->
  run (linkLookupAndPersist c (Params.SyncableId c)
         (Params.SyncableType c) patch) s1 =
  mkRun (persisted StatusCreated res) s3
    [Ev get (None, appErr); Ev (CreateGroupSyncable gs) res].
Proof.
  intros get gs Hget Hab Hcr. unfold linkLookupAndPersist; simpl.
  fold get. rewrite Hget; simpl.
  assert (Hgo : forall k : unit -> Prog (Response (option model.GroupSyncable)),
             bind match appErr with
                  | Some err =>
                      if negb (String.eqb (model.DetailedError err) ErrNoRows)
                      then Fail err else mret ()
                  | None => mret ()
                  end k = k ()).
  { intros k. destruct appErr as [err|]; simpl in *; [rewrite Hab|]; reflexivity. }
  unfold mbind, Prog_bind. rewrite Hgo. simpl. fold gs. rewrite Hcr.
  destruct res as [r [e|]]; reflexivity.
Qed.

Lemma run_lookup_update (c : Params.t) (patch : model.GroupSyncablePatch)
    (s1 s2 s3 : S) (old : model.GroupSyncable)
    (appErr : option model.AppError) (res : Result model.GroupSyncable) :
  let get := GetGroupSyncable (Params.GroupId c) (Params.SyncableId c)
               (Params.SyncableType c) in
  let gs := model.Patch (model.setDeleteAt old 0) patch in
  handle get s1 = ((Some old, appErr), s2) ->
  lookupAborts appErr = false ->
  handle (UpdateGroupSyncable gs) s2 = (res, s3) ->
  run (linkLookupAndPersist c (Params.SyncableId c)
         (Params.SyncableType c) patch) s1 =
  mkRun (persisted StatusCreated res) s3
    [Ev get (Some old, appErr); Ev (UpdateGroupSyncable gs) res].
Proof.
  intros get gs Hget Hab Hup. unfold linkLookupAndPersist; simpl.
  fold get. rewrite Hget; simpl.
  assert (Hgo : forall k : unit -> Prog (Response (option model.GroupSyncable)),
             bind match appErr with
                  | Some err =>
                      if negb (String.eqb (model.DetailedError err) ErrNoRows)
                      then Fail err else mret ()
                  | None => mret ()
                  end k = k ()).
  { intros k. destruct appErr as [err|]; simpl in *; [rewrite Hab|]; reflexivity. }
  unfold mbind, Prog_bind. rewrite Hgo. simpl. fold gs. rewrite Hup.
  destruct res as [r [e|]]; reflexivity.
Qed.

End Link.

(** ** Link: the three branches (C1) and the lookup error (C3) *)

Section LinkProperties.

Context {checks : ParamChecks} {S : Type} {theApp : App S}.

(** C1.  A link that passes the license and permission gates looks the
    triple up and, unless the lookup aborts, takes one of two writes:
    with no record found it builds a new record with the triple's
    identity, applies the patch and calls Create; with a record found,
    tombstoned or not, it sets [DeleteAt] to 0, applies the patch and
    calls Update.  The handler ends with what that write answered: its
    error, or status 201 with the persisted record. *)
Theorem link_create_or_update (c : Params.t)
    (patch : model.GroupSyncablePatch) (s s1 s2 : S) (tr1 : list Event)
    (found : option model.GroupSyncable) (appErr : option model.AppError) :
  let get := GetGroupSyncable (Params.GroupId c) (Params.SyncableId c)
               (Params.SyncableType c) in
  triplePasses c ->
  run (linkGates c) s = mkRun (Done ()) s1 tr1 ->
  handle get s1 = ((found, appErr), s2) ->
  lookupAborts appErr = false ->
  match found with
  | None =>
      let gs := model.Patch
                  (newGroupSyncable (Params.GroupId c) (Params.SyncableId c)
                     (Params.SyncableType c)) patch in
      keyOf gs = (Params.GroupId c, Params.SyncableId c, Params.SyncableType c)
      /\ forall res s3,
          handle (CreateGroupSyncable gs) s2 = (res, s3) ->
          run (linkGroupSyncable c (Unmarshalled (Some patch))) s =
          mkRun (persisted StatusCreated res) s3
            (tr1 ++ [Ev get (found, appErr); Ev (CreateGroupSyncable gs) res])
  | Some old =>
      let gs := model.Patch (model.setDeleteAt old 0) patch in
      keyOf gs = keyOf old /\ model.DeleteAt gs = 0
      /\ forall res s3,
          handle (UpdateGroupSyncable gs) s2 = (res, s3) ->
          run (linkGroupSyncable c (Unmarshalled (Some patch))) s =
          mkRun (persisted StatusCreated res) s3
            (tr1 ++ [Ev get (found, appErr); Ev (UpdateGroupSyncable gs) res])
  end.
Proof.
  intros get Hc Hgates Hget Hab.
  destruct found as [old|].
  - split; [|split].
    + unfold model.Patch; destruct (model.PatchAutoAdd patch); reflexivity.
    + unfold model.Patch; destruct (model.PatchAutoAdd patch); reflexivity.
    + intros res s3 Hup.
      rewrite (run_link_split c patch s Hc), Hgates, andThen_done.
      rewrite (run_lookup_update c patch s1 s2 s3 old appErr res Hget Hab Hup).
      reflexivity.
  - split.
    + unfold model.Patch; destruct (model.PatchAutoAdd patch); reflexivity.
    + intros res s3 Hcr.
      rewrite (run_link_split c patch s Hc), Hgates, andThen_done.
      rewrite (run_lookup_create c patch s1 s2 s3 appErr res Hget Hab Hcr).
      reflexivity.
Qed.

(** C3.  When the lookup answers with an error whose detail is not the
    text of [sql.ErrNoRows], the link ends with that very error right
    after the lookup: the trace holds no Create and no Update.  When the
    lookup answers not-found with no record, the link goes on to Create
    and ends with what Create answered. *)
Theorem link_lookup_error (c : Params.t)
    (patch : model.GroupSyncablePatch) (s s1 s2 : S) (tr1 : list Event)
    (found : option model.GroupSyncable) (err : model.AppError) :
  let get := GetGroupSyncable (Params.GroupId c) (Params.SyncableId c)
               (Params.SyncableType c) in
  let gs := model.Patch
              (newGroupSyncable (Params.GroupId c) (Params.SyncableId c)
                 (Params.SyncableType c)) patch in
  triplePasses c ->
  run (linkGates c) s = mkRun (Done ()) s1 tr1 ->
  handle get s1 = ((found, Some err), s2) ->
  (model.DetailedError err <> ErrNoRows ->
   run (linkGroupSyncable c (Unmarshalled (Some patch))) s =
   mkRun (Failed err) s2 (tr1 ++ [Ev get (found, Some err)]))
  /\ (model.DetailedError err = ErrNoRows -> found = None ->
      forall res s3,
        handle (CreateGroupSyncable gs) s2 = (res, s3) ->
        run (linkGroupSyncable c (Unmarshalled (Some patch))) s =
        mkRun (persisted StatusCreated res) s3
          (tr1 ++ [Ev get (None, Some err); Ev (CreateGroupSyncable gs) res])).
Proof.
  intros get gs Hc Hgates Hget. split.
  - intros Hne.
    rewrite (run_link_split c patch s Hc), Hgates, andThen_done.
    rewrite (run_lookup_abort c patch s1 s2 found err Hget); [reflexivity|].
    simpl. apply negb_true_iff, String.eqb_neq, Hne.
  - intros Heq -> res s3 Hcr.
    rewrite (run_link_split c patch s Hc), Hgates, andThen_done.
    rewrite (run_lookup_create c patch s1 s2 s3 (Some err) res Hget);
      [reflexivity| |exact Hcr].
    simpl. apply negb_false_iff, String.eqb_eq, Heq.
Qed.

End LinkProperties.

(** ** Witnesses for C1 and C3 *)

(** The record the first link of (g1, t1, Team) with auto-add on hands to
    Create. *)
Lemma link_create_or_update_witness :
  let c := request idT1 model.GroupSyncableTypeTeam in
  let gs := model.Patch (newGroupSyncable idG1 idT1 model.GroupSyncableTypeTeam)
              (autoAdd true) in
  run (linkGroupSyncable c (Unmarshalled (Some (autoAdd true)))) world0 =
  mkRun (Done (StatusCreated, Some (setCreateAt gs 100)))
    (setSyncables world0 {[ keyOf gs := setCreateAt gs 100 ]})
    ((licenseEvents ++
      [Ev (SessionHasPermissionToTeam idT1 model.PERMISSION_MANAGE_TEAM) true]) ++
     [Ev (GetGroupSyncable idG1 idT1 model.GroupSyncableTypeTeam)
        (None, Some (notFoundError "SqlGroupStore.GroupGetGroupSyncable"));
      Ev (CreateGroupSyncable gs) (Some (setCreateAt gs 100), None)]).
Proof.
  intros c gs.
  exact (proj2 (link_create_or_update c (autoAdd true) world0 world0 world0
                  (licenseEvents ++
                   [Ev (SessionHasPermissionToTeam idT1
                          model.PERMISSION_MANAGE_TEAM) true])
                  None (Some (notFoundError "SqlGroupStore.GroupGetGroupSyncable"))
                  (conj eq_refl (conj eq_refl eq_refl)) eq_refl eq_refl eq_refl)
           (Some (setCreateAt gs 100), None)
           (setSyncables world0 {[ keyOf gs := setCreateAt gs 100 ]})
           eq_refl).
Defined.

Lemma link_lookup_error_witness :
  let c := request idT1 model.GroupSyncableTypeTeam in
  run (theApp := BrokenLookup)
    (linkGroupSyncable c (Unmarshalled (Some (autoAdd true)))) world0 =
  mkRun (Failed brokenStoreError) world0
    ((licenseEvents ++
      [Ev (SessionHasPermissionToTeam idT1 model.PERMISSION_MANAGE_TEAM) true]) ++
     [Ev (GetGroupSyncable idG1 idT1 model.GroupSyncableTypeTeam)
        (None, Some brokenStoreError)]).
Proof.
  intros c.
  refine (proj1 (link_lookup_error (theApp := BrokenLookup) c (autoAdd true)
                   world0 world0 world0
                   (licenseEvents ++
                    [Ev (SessionHasPermissionToTeam idT1
                           model.PERMISSION_MANAGE_TEAM) true])
                   None brokenStoreError
                   (conj eq_refl (conj eq_refl eq_refl)) eq_refl eq_refl) _).
  discriminate.
Defined.

(** ** Counting writes *)

Lemma writes_cons (ev : Event) (tr : list Event) :
  writes (ev :: tr) = ((if isWrite ev then 1 else 0) + writes tr)%nat.
Proof.
  unfold writes. rewrite filter_cons.
  destruct (isWrite ev); simpl; reflexivity.
Qed.

Lemma creates_cons (ev : Event) (tr : list Event) :
  creates (ev :: tr) = ((if isCreate ev then 1 else 0) + creates tr)%nat.
Proof.
  unfold creates. rewrite filter_cons.
  destruct (isCreate ev); simpl; reflexivity.
Qed.

Lemma updates_cons (ev : Event) (tr : list Event) :
  updates (ev :: tr) = ((if isUpdate ev then 1 else 0) + updates tr)%nat.
Proof.
  unfold updates. rewrite filter_cons.
  destruct (isUpdate ev); simpl; reflexivity.
Qed.

Lemma creates_app (tr1 tr2 : list Event) :
  creates (tr1 ++ tr2) = (creates tr1 + creates tr2)%nat.
Proof. unfold creates. rewrite filter_app, length_app. reflexivity. Qed.

Lemma updates_app (tr1 tr2 : list Event) :
  updates (tr1 ++ tr2) = (updates tr1 + updates tr2)%nat.
Proof. unfold updates. rewrite filter_app, length_app. reflexivity. Qed.

Section Writes.

Context {checks : ParamChecks} {S : Type} {theApp : App S}.

(** Without a write call the state is the one the run started in, for an
    application whose reads are pure. *)
Lemma run_no_write_final {R : Type} (p : Prog R) (s : S) :
  pureReads ->
  writes (trace (run p s)) = 0%nat ->
  final (run p s) = s.
Proof.
  intros Hpure. revert s.
  induction p as [r | e | | X call k IH]; intros s; simpl; try reflexivity.
  specialize (Hpure X call s).
  destruct (handle call s) as [x s']. simpl in *.
  rewrite writes_cons. simpl.
  destruct (isWriteCall call); [discriminate|].
  intros Hw. rewrite (IH x s' Hw). apply Hpure. reflexivity.
Qed.

Lemma requireLicense_trace (where_ : string) (s : S) :
  writes (trace (run (requireLicense where_) s)) = 0%nat
  /\ creates (trace (run (requireLicense where_) s)) = 0%nat
  /\ updates (trace (run (requireLicense where_) s)) = 0%nat.
Proof.
  unfold requireLicense; simpl.
  destruct (handle License s) as [[l1|] s1]; simpl; [|repeat split].
  destruct (handle License s1) as [[l2|] s2]; simpl; [|repeat split].
  destruct (model.LDAPGroups l2); simpl; repeat split.
Qed.

Lemma linkPermissionCheck_trace (syncableID : string)
    (t : model.GroupSyncableType) (s : S) :
  writes (trace (run (linkPermissionCheck syncableID t) s)) = 0%nat
  /\ creates (trace (run (linkPermissionCheck syncableID t) s)) = 0%nat
  /\ updates (trace (run (linkPermissionCheck syncableID t) s)) = 0%nat.
Proof.
  unfold linkPermissionCheck; destruct t; simpl.
  - destruct (handle (SessionHasPermissionToTeam syncableID
                        model.PERMISSION_MANAGE_TEAM) s) as [[|] s1];
      simpl; repeat split.
  - destruct (handle (SessionHasPermissionToChannel syncableID
                        model.PERMISSION_MANAGE_PUBLIC_CHANNEL_MEMBERS) s)
      as [[|] s1]; simpl; repeat split.
Qed.

Lemma linkGates_trace (c : Params.t) (s : S) :
  writes (trace (run (linkGates c) s)) = 0%nat
  /\ creates (trace (run (linkGates c) s)) = 0%nat
  /\ updates (trace (run (linkGates c) s)) = 0%nat.
Proof.
  unfold linkGates. rewrite run_bind. unfold andThen.
  pose proof (requireLicense_trace "Api4.createGroupSyncable" s) as (Hw & Hc & Hu).
  destruct (outcome (run (requireLicense "Api4.createGroupSyncable") s));
    cbn [trace outcome final]; [|repeat split; assumption..].
  pose proof (linkPermissionCheck_trace (Params.SyncableId c)
                (Params.SyncableType c)
                (final (run (requireLicense "Api4.createGroupSyncable") s)))
    as (Hw' & Hc' & Hu').
  rewrite writes_app, creates_app, updates_app, Hw, Hc, Hu, Hw', Hc', Hu'.
  repeat split.
Qed.

Lemma linkGates_license_failed (c : Params.t) (s : S) :
  isDone (outcome (run (requireLicense "Api4.createGroupSyncable") s)) = false ->
  isDone (outcome (run (linkGates c) s)) = false.
Proof.
  unfold linkGates. rewrite run_bind. unfold andThen.
  destruct (outcome (run (requireLicense "Api4.createGroupSyncable") s));
    simpl; [discriminate|reflexivity..].
Qed.

(** The lookup and persist part: one write when it ends well, none when
    the lookup aborts, never more than one. *)
Lemma linkLookupAndPersist_trace (c : Params.t)
    (patch : model.GroupSyncablePatch) (s : S) :
  let R := run (linkLookupAndPersist c (Params.SyncableId c)
                  (Params.SyncableType c) patch) s in
  (writes (trace R) <= 1)%nat
  /\ (isDone (outcome R) = true ->
      writes (trace R) = 1%nat /\ (creates (trace R) + updates (trace R) = 1)%nat)
  /\ (lookupAborts (handle (lookupOf c) s).1.2 = true ->
      writes (trace R) = 0%nat).
Proof.
  unfold linkLookupAndPersist, lookupOf; simpl.
  destruct (handle (GetGroupSyncable (Params.GroupId c) (Params.SyncableId c)
                      (Params.SyncableType c)) s) as [[found appErr] s2]; simpl.
  destruct appErr as [err|]; simpl;
    [destruct (String.eqb (model.DetailedError err) ErrNoRows); simpl|];
    destruct found as [old|]; simpl;
    repeat match goal with
           | |- context [handle ?call ?st] =>
               destruct (handle call st) as [[? [?|]] ?]; simpl
           end;
    repeat split; intros; try discriminate; auto.
Qed.

End Writes.

(** ** Link: at most one write (C5) *)

Section LinkWrites.

Context {checks : ParamChecks} {S : Type} {theApp : App S}.

Lemma run_link_cases (c : Params.t) (r : RequestBody) (s : S) :
  (exists e, run (linkGroupSyncable c r) s = mkRun (Failed e) s [])
  \/ (exists patch, r = Unmarshalled (Some patch) /\ triplePasses c).
Proof.
  unfold linkGroupSyncable, triplePasses.
  destruct (RequireGroupId c) as [e|]; [left; exists e; reflexivity|].
  destruct (RequireSyncableId c) as [e|]; [left; exists e; reflexivity|].
  destruct (RequireSyncableType c) as [e|]; [left; exists e; reflexivity|].
  destruct r as [msg| |[patch|]]; try (left; eexists; reflexivity).
  right; exists patch; repeat split.
Qed.

(** C5.  A link makes at most one write call.  When it ends with a
    response it made exactly one, a Create or an Update.  When the license
    gate or the permission gate does not let it through, or when the lookup
    aborts, it made none; and a run without a write call leaves the state
    of an application with pure reads as it found it. *)
Theorem link_at_most_one_write (c : Params.t) (r : RequestBody) (s : S) :
  let R := run (linkGroupSyncable c r) s in
  (writes (trace R) <= 1)%nat
  /\ (isDone (outcome R) = true ->
      writes (trace R) = 1%nat /\ (creates (trace R) + updates (trace R) = 1)%nat)
  /\ (isDone (outcome (run (requireLicense "Api4.createGroupSyncable") s)) = false ->
      writes (trace R) = 0%nat)
  /\ (isDone (outcome (run (linkGates c) s)) = false ->
      writes (trace R) = 0%nat)
  /\ (lookupAborts (handle (lookupOf c) (final (run (linkGates c) s))).1.2 = true ->
      writes (trace R) = 0%nat)
  /\ (pureReads -> writes (trace R) = 0%nat -> final R = s).
Proof.
  intros R.
  assert (Hlast : pureReads -> writes (trace R) = 0%nat -> final R = s).
  { intros Hpure Hw. apply run_no_write_final; assumption. }
  destruct (run_link_cases c r s) as [[e He] | (patch & -> & Hc)].
  - subst R. rewrite He in *. simpl.
    repeat split; auto; discriminate.
  - subst R. rewrite (run_link_split c patch s Hc) in *.
    pose proof (linkGates_trace c s) as (Hw & Hcr & Hup).
    pose proof (linkGates_license_failed c s) as Hlic.
    unfold andThen in *.
    destruct (outcome (run (linkGates c) s)) as [[]|e|] eqn:Hout;
      cbn [trace outcome final isDone] in *.
    + pose proof (linkLookupAndPersist_trace c patch (final (run (linkGates c) s)))
        as (H1 & H2 & H3). cbn zeta in H1, H2, H3.
      rewrite writes_app, Hw in Hlast.
      rewrite writes_app, creates_app, updates_app, Hw, Hcr, Hup.
      cbn [Nat.add] in *.
      repeat split; auto; try discriminate.
      * apply H2; assumption.
      * apply H2; assumption.
      * intros Hl. specialize (Hlic Hl). discriminate.
    + rewrite Hw. repeat split; auto; discriminate.
    + rewrite Hw. repeat split; auto; discriminate.
Qed.

End LinkWrites.

(** The in-memory application reads without changing its state. *)
Lemma World_pureReads : pureReads (theApp := World_App).
Proof.
  intros X call w Hread. destruct call; try discriminate; reflexivity.
Qed.

Lemma link_at_most_one_write_witness :
  let R := run (linkGroupSyncable (request idC1 model.GroupSyncableTypeChannel)
                  (Unmarshalled (Some (autoAdd true)))) worldDenied in
  writes (trace R) = 0%nat /\ final R = worldDenied.
Proof.
  intros R.
  pose proof (link_at_most_one_write
                (request idC1 model.GroupSyncableTypeChannel)
                (Unmarshalled (Some (autoAdd true))) worldDenied)
    as (_ & _ & _ & Hgate & _ & Hfinal).
  assert (Hw : writes (trace R) = 0%nat) by (apply Hgate; reflexivity).
  split; [exact Hw|].
  exact (Hfinal World_pureReads Hw).
Defined.

(** ** Link: the permission switch (C2) *)

Section LinkPermission.

Context {S : Type} {theApp : App S}.

(** The Team case checks and names the same permission. *)
Lemma linkPermissionCheck_team (syncableID : string) (s s1 : S) (allowed : bool) :
  handle (SessionHasPermissionToTeam syncableID model.PERMISSION_MANAGE_TEAM) s
  = (allowed, s1) ->
  run (linkPermissionCheck syncableID model.GroupSyncableTypeTeam) s =
  mkRun (if allowed then Done ()
         else Failed (SetPermissionError model.PERMISSION_MANAGE_TEAM))
    s1
    [Ev (SessionHasPermissionToTeam syncableID model.PERMISSION_MANAGE_TEAM)
       allowed].
Proof.
  intros Hh. unfold linkPermissionCheck; simpl. rewrite Hh.
  destruct allowed; reflexivity.
Qed.

(** The Channel case checks the public-channel permission and names the
    private-channel one. *)
Lemma linkPermissionCheck_channel (syncableID : string) (s s1 : S)
    (allowed : bool) :
  handle (SessionHasPermissionToChannel syncableID
            model.PERMISSION_MANAGE_PUBLIC_CHANNEL_MEMBERS) s
  = (allowed, s1) ->
  run (linkPermissionCheck syncableID model.GroupSyncableTypeChannel) s =
  mkRun (if allowed then Done ()
         else Failed (SetPermissionError
                        model.PERMISSION_MANAGE_PRIVATE_CHANNEL_MEMBERS))
    s1
    [Ev (SessionHasPermissionToChannel syncableID
           model.PERMISSION_MANAGE_PUBLIC_CHANNEL_MEMBERS) allowed].
Proof.
  intros Hh. unfold linkPermissionCheck; simpl. rewrite Hh.
  destruct allowed; reflexivity.
Qed.

End LinkPermission.

(** C2.  Linking to a channel for a session that holds the private-channel
    permission on it and lacks the public-channel one: the only permission
    the handler asks for is PERMISSION_MANAGE_PUBLIC_CHANNEL_MEMBERS, no
    write is made, and the error it ends with names
    PERMISSION_MANAGE_PRIVATE_CHANNEL_MEMBERS, which is not the permission
    checked (and which this session holds). *)
Theorem link_channel_denial_names_unchecked_permission :
  let c := request idC1 model.GroupSyncableTypeChannel in
  let R := run (linkGroupSyncable c (Unmarshalled (Some (autoAdd true))))
             worldPrivateOnly in
  trace R =
    (licenseEvents ++
     [Ev (SessionHasPermissionToChannel idC1
            model.PERMISSION_MANAGE_PUBLIC_CHANNEL_MEMBERS) false])%list
  /\ outcome R =
     Failed (SetPermissionError model.PERMISSION_MANAGE_PRIVATE_CHANNEL_MEMBERS)
  /\ SetPermissionError model.PERMISSION_MANAGE_PRIVATE_CHANNEL_MEMBERS <>
     SetPermissionError model.PERMISSION_MANAGE_PUBLIC_CHANNEL_MEMBERS
  /\ wHasPermissionToChannel worldPrivateOnly idC1
       model.PERMISSION_MANAGE_PRIVATE_CHANNEL_MEMBERS = true
  /\ writes (trace R) = 0%nat.
Proof.
  repeat split. discriminate.
Qed.

(** ** Patch (C6) and Unlink (C7) *)

Section PatchUnlink.

Context {checks : ParamChecks} {S : Type} {theApp : App S}.

(** C6.  A patch that passes the license and the system permission
    fetches the record of the triple.  A lookup error, not-found included,
    ends the run with that error right after the lookup, without a write.
    A fetched record goes to Update with the patch applied, [DeleteAt] and
    identity as fetched, and the run ends with what Update answered.  No
    run of this part calls Create.  The handler does not test the record
    for nil: should the lookup answer neither a record nor an error, a
    patch that holds a field dereferences the nil record and a patch that
    holds none sends the nil record to Update. *)
Theorem patch_fetch_apply_update (c : Params.t)
    (patch : model.GroupSyncablePatch) (s s1 s2 s3 : S) (tr1 : list Event)
    (found : option model.GroupSyncable) (appErr : option model.AppError) :
  let permission := SessionHasPermissionTo model.PERMISSION_MANAGE_SYSTEM in
  let R := run (patchGroupSyncable c (Unmarshalled (Some patch))) s in
  let pre := (tr1 ++ [Ev permission true; Ev (lookupOf c) (found, appErr)])%list in
  triplePasses c ->
  run (requireLicense "Api4.patchGroupSyncable") s = mkRun (Done ()) s1 tr1 ->
  handle permission s1 = (true, s2) ->
  handle (lookupOf c) s2 = ((found, appErr), s3) ->
  creates (trace R) = 0%nat
  /\ match appErr, found with
     | Some err, _ => R = mkRun (Failed err) s3 pre /\ writes (trace R) = 0%nat
     | None, Some gs =>
         let gs' := model.Patch gs patch in
         model.DeleteAt gs' = model.DeleteAt gs
         /\ keyOf gs' = keyOf gs
         /\ forall res s4,
             handle (UpdateGroupSyncable gs') s3 = (res, s4) ->
             R = mkRun (persisted StatusOK res) s4
                   (pre ++ [Ev (UpdateGroupSyncable gs') res])
     | None, None =>
         match model.PatchAutoAdd patch with
         | Some _ => R = mkRun Panicked s3 pre
         | None =>
             forall res s4,
               handle UpdateGroupSyncableNil s3 = (res, s4) ->
               R = mkRun (persisted StatusOK res) s4
                     (pre ++ [Ev UpdateGroupSyncableNil res])
         end
     end.
Proof.
  intros permission R pre (Hg & Hi & Ht) Hlic Hperm Hget.
  pose proof (requireLicense_trace "Api4.patchGroupSyncable" s)
    as (Hwr & Hcr & _).
  rewrite Hlic in Hwr, Hcr; simpl in Hwr, Hcr.
  assert (HR : R = andThen (mkRun (Done ()) s1 tr1)
                     (fun _ s' =>
                        run (requireManageSystem;;
                             '(groupSyncable, appErr) ← app (lookupOf c);
                             orFail appErr;;
                             match groupSyncable with
                             | None =>
                                 match model.PatchAutoAdd patch with
                                 | Some _ => Panic
                                 | None =>
                                     '(groupSyncable, appErr) ←
                                       app UpdateGroupSyncableNil;
                                     orFail appErr;;
                                     mret (StatusOK, groupSyncable)
                                 end
                             | Some groupSyncable =>
                                 let groupSyncable :=
                                   model.Patch groupSyncable patch in
                                 '(groupSyncable, appErr) ←
                                   app (UpdateGroupSyncable groupSyncable);
                                 orFail appErr;;
                                 mret (StatusOK, groupSyncable)
                             end) s')).
  { subst R. unfold patchGroupSyncable. rewrite Hg, Hi, Ht.
    rewrite <- Hlic.
    exact (run_bind (requireLicense "Api4.patchGroupSyncable") _ s). }
  rewrite HR, andThen_done. clear HR. unfold lookupOf in *.
  simpl. fold permission. rewrite Hperm. simpl. rewrite Hget. simpl.
  destruct appErr as [err|]; simpl.
  - split; [rewrite creates_app, Hcr; reflexivity|].
    split; [reflexivity|]. rewrite writes_app, Hwr. reflexivity.
  - destruct found as [gs|]; simpl.
    + destruct (handle (UpdateGroupSyncable (model.Patch gs patch)) s3)
        as [[r e] s4] eqn:Hup.
      split.
      * destruct e; simpl; rewrite creates_app, Hcr; reflexivity.
      * split; [|split].
        -- unfold model.Patch; destruct (model.PatchAutoAdd patch); reflexivity.
        -- unfold model.Patch; destruct (model.PatchAutoAdd patch); reflexivity.
        -- intros res s4' Heq. injection Heq as <- <-.
           subst pre. unfold persisted; destruct e; simpl;
             rewrite <- app_assoc; reflexivity.
    + destruct (model.PatchAutoAdd patch) as [v|]; simpl.
      * split; [|reflexivity].
        rewrite creates_app, Hcr. reflexivity.
      * destruct (handle UpdateGroupSyncableNil s3) as [[r e] s4] eqn:Hup.
        split.
        -- destruct e; simpl; rewrite creates_app, Hcr; reflexivity.
        -- intros res s4' Heq. injection Heq as <- <-.
           subst pre. unfold persisted; destruct e; simpl;
             rewrite <- app_assoc; reflexivity.
Qed.

(** C7.  An unlink is gated by the one system permission, whatever the
    syncable type.  Denied, it ends with the permission error naming it
    and calls nothing more.  Allowed, it calls Delete for the triple; an
    error Delete answers, not-found included, is the error the run ends
    with, and only without one is status OK written. *)
Theorem unlink_gate_and_delete (c : Params.t) (s s1 s2 : S)
    (tr1 : list Event) (allowed : bool) :
  let permission := SessionHasPermissionTo model.PERMISSION_MANAGE_SYSTEM in
  let delete := DeleteGroupSyncable (Params.GroupId c) (Params.SyncableId c)
                  (Params.SyncableType c) in
  let R := run (unlinkGroupSyncable c) s in
  triplePasses c ->
  run (requireLicense "Api4.unlinkGroupSyncable") s = mkRun (Done ()) s1 tr1 ->
  handle permission s1 = (allowed, s2) ->
  if allowed
  then forall res s3,
      handle delete s2 = (res, s3) ->
      R = mkRun (answered StatusOK () res) s3
            (tr1 ++ [Ev permission true; Ev delete res])
      /\ (forall err, res.2 = Some err -> outcome R = Failed err)
      /\ (res.2 = None -> outcome R = Done (StatusOK, ()))
  else R = mkRun (Failed (SetPermissionError model.PERMISSION_MANAGE_SYSTEM))
             s2 (tr1 ++ [Ev permission false]).
Proof.
  intros permission delete R (Hg & Hi & Ht) Hlic Hperm.
  assert (HR : R = andThen (mkRun (Done ()) s1 tr1)
                     (fun _ s' =>
                        run (requireManageSystem;;
                             '(_, err) ← app delete;
                             orFail err;;
                             mret (StatusOK, ())) s')).
  { subst R. unfold unlinkGroupSyncable. rewrite Hg, Hi, Ht.
    rewrite <- Hlic.
    exact (run_bind (requireLicense "Api4.unlinkGroupSyncable") _ s). }
  rewrite HR, andThen_done. clear HR.
  simpl. fold permission. rewrite Hperm.
  destruct allowed; simpl; [|reflexivity].
  intros res s3 Hdel. fold delete. rewrite Hdel.
  destruct res as [r [e|]]; simpl; unfold answered; simpl.
  - repeat split; [intros err [= ->]; reflexivity | discriminate].
  - repeat split; discriminate.
Qed.

End PatchUnlink.

(** Patching a triple that has no record: the store's not-found error. *)
Lemma patch_fetch_apply_update_witness :
  let c := request idT1 model.GroupSyncableTypeTeam in
  run (patchGroupSyncable c (Unmarshalled (Some (autoAdd true)))) world0 =
  mkRun (Failed (notFoundError "SqlGroupStore.GroupGetGroupSyncable")) world0
    (licenseEvents ++
     [Ev (SessionHasPermissionTo model.PERMISSION_MANAGE_SYSTEM) true;
      Ev (lookupOf c)
        (None, Some (notFoundError "SqlGroupStore.GroupGetGroupSyncable"))])%list
  /\ writes
       (trace (run (patchGroupSyncable c (Unmarshalled (Some (autoAdd true))))
                 world0)) = 0%nat.
Proof.
  intros c.
  exact (proj2 (patch_fetch_apply_update c (autoAdd true)
                  world0 world0 world0 world0 licenseEvents None
                  (Some (notFoundError "SqlGroupStore.GroupGetGroupSyncable"))
                  (conj eq_refl (conj eq_refl eq_refl))
                  eq_refl eq_refl eq_refl)).
Defined.

(** Unlinking a triple that has no record: the store's not-found error. *)
Lemma unlink_gate_and_delete_witness :
  let c := request idT1 model.GroupSyncableTypeTeam in
  outcome (run (unlinkGroupSyncable c) world0) =
  Failed (notFoundError "SqlGroupStore.GroupDeleteGroupSyncable").
Proof.
  intros c.
  exact (proj1 (proj2
    (unlink_gate_and_delete c world0 world0 world0 licenseEvents true
       (conj eq_refl (conj eq_refl eq_refl)) eq_refl eq_refl
       (None, Some (notFoundError "SqlGroupStore.GroupDeleteGroupSyncable"))
       world0 eq_refl))
    (notFoundError "SqlGroupStore.GroupDeleteGroupSyncable") eq_refl).
Defined.

(** ** Listing groups: NotAssociatedToTeam in getGroups (C10) *)

Lemma permissionChecks_app (tr1 tr2 : list Event) :
  permissionChecks (tr1 ++ tr2) = (permissionChecks tr1 + permissionChecks tr2)%nat.
Proof. unfold permissionChecks. rewrite filter_app, length_app. reflexivity. Qed.

Section Listing.

Context {checks : ParamChecks} {S : Type} {theApp : App S}.

Lemma requireLicense_no_permission (where_ : string) (s : S) :
  permissionChecks (trace (run (requireLicense where_) s)) = 0%nat.
Proof.
  unfold requireLicense; simpl.
  destruct (handle License s) as [[l1|] s1]; simpl; [|reflexivity].
  destruct (handle License s1) as [[l2|] s2]; simpl; [|reflexivity].
  destruct (model.LDAPGroups l2); reflexivity.
Qed.

(** C10.  In [getGroups] the NotAssociatedToTeam parameter counts exactly
    when it is 26 long: then the team-management permission on that team is
    checked, a denial ends the run, and the search carries the team.  With
    any other length the search carries no team, the trace holds no
    permission check at all, and the run ends with what the paged listing
    answered. *)
Theorem getGroups_notAssociatedToTeam (c : Params.t) (s s1 : S)
    (tr1 : list Event) :
  let teamID := Params.NotAssociatedToTeam c in
  let permission :=
    SessionHasPermissionToTeam teamID model.PERMISSION_MANAGE_TEAM in
  let page := fun notAssociated =>
    GetGroupsPage (Params.Page c) (Params.PerPage c)
      (searchOptsOf c notAssociated) in
  let R := run (getGroups c) s in
  run (requireLicense "Api4.getGroups") s = mkRun (Done ()) s1 tr1 ->
  if (String.length teamID =? 26)%nat
  then forall allowed s2,
      handle permission s1 = (allowed, s2) ->
      if allowed
      then forall res s3,
          handle (page (Some teamID)) s2 = (res, s3) ->
          R = mkRun (answered StatusOK res.1 res) s3
                (tr1 ++ [Ev permission true; Ev (page (Some teamID)) res])
      else R = mkRun (Failed (SetPermissionError model.PERMISSION_MANAGE_TEAM))
                 s2 (tr1 ++ [Ev permission false])
  else forall res s3,
      handle (page None) s1 = (res, s3) ->
      R = mkRun (answered StatusOK res.1 res) s3 (tr1 ++ [Ev (page None) res])
      /\ permissionChecks (trace R) = 0%nat.
Proof.
  intros teamID permission page R Hlic.
  pose proof (requireLicense_no_permission "Api4.getGroups" s) as Hnp.
  rewrite Hlic in Hnp; simpl in Hnp.
  assert (Hopts : forall o,
             (if Params.IncludeMemberCount c
              then setIncludeMemberCount
                     (match o with
                      | Some t =>
                          setNotAssociatedToTeam
                            (if (1 <? String.length (Params.Q c))%nat
                             then setQ emptyOpts (Params.Q c) else emptyOpts) t
                      | None =>
                          if (1 <? String.length (Params.Q c))%nat
                          then setQ emptyOpts (Params.Q c) else emptyOpts
                      end) true
              else match o with
                   | Some t =>
                       setNotAssociatedToTeam
                         (if (1 <? String.length (Params.Q c))%nat
                          then setQ emptyOpts (Params.Q c) else emptyOpts) t
                   | None =>
                       if (1 <? String.length (Params.Q c))%nat
                       then setQ emptyOpts (Params.Q c) else emptyOpts
                   end) = searchOptsOf c o).
  { intros o. unfold searchOptsOf.
    destruct (Params.IncludeMemberCount c), o,
      (1 <? String.length (Params.Q c))%nat; reflexivity. }
  subst R. unfold getGroups.
  rewrite (run_bind (requireLicense "Api4.getGroups") _ s), Hlic, andThen_done.
  fold teamID.
  destruct (String.length teamID =? 26)%nat.
  - intros allowed s2 Hperm. simpl. fold permission. rewrite Hperm.
    destruct allowed; simpl; [|reflexivity].
    intros res s3 Hpage. rewrite (Hopts (Some teamID)).
    fold (page (Some teamID)). rewrite Hpage.
    destruct res as [groups [e|]]; reflexivity.
  - intros res s3 Hpage. simpl. rewrite (Hopts None).
    fold (page None). rewrite Hpage.
    destruct res as [groups [e|]]; simpl;
      (split; [reflexivity|]);
      rewrite permissionChecks_app, Hnp; reflexivity.
Qed.

End Listing.

(** A malformed, non-empty NotAssociatedToTeam for a session without any
    permission: the unfiltered first page, no error. *)
Lemma getGroups_notAssociatedToTeam_witness :
  let c := withSearch (request idT1 model.GroupSyncableTypeTeam)
             "" "not-a-team-id" false in
  run (getGroups c) worldDenied =
  mkRun (Done (StatusOK, [group "a"; group "b"; group "c"])) worldDenied
    (licenseEvents ++
     [Ev (GetGroupsPage 0 60 (searchOptsOf c None))
        ([group "a"; group "b"; group "c"], None)])%list
  /\ permissionChecks (trace (run (getGroups c) worldDenied)) = 0%nat.
Proof.
  intros c.
  exact (getGroups_notAssociatedToTeam c worldDenied worldDenied licenseEvents
           eq_refl ([group "a"; group "b"; group "c"], None) worldDenied
           eq_refl).
Defined.

(** ** Groups of a team: the search handed to the store (C9) *)

Section TeamListing.

Context {checks : ParamChecks} {S : Type} {theApp : App S}.

(** C9, amended.  [getGroupsByTeam] applies three of the four options.  Past
    the team-id check, the license gate and the team-management permission
    it makes one search for the team: the query is in it only when longer
    than one character, includeMemberCount as requested, no page bounds when
    paginate is explicitly false and Page and PerPage otherwise.
    NotAssociatedToTeam is not read: the search never excludes a team. *)
Theorem getGroupsByTeam_search (c : Params.t) (s s1 s2 s3 : S)
    (tr1 : list Event) (res : list model.Group * option model.AppError) :
  let permission :=
    SessionHasPermissionToTeam (Params.TeamId c) model.PERMISSION_MANAGE_TEAM in
  let search :=
    GetGroupsByTeam (Params.TeamId c) (pageBoundsOf c).1 (pageBoundsOf c).2
      (searchOptsOf c None) in
  RequireTeamId c = None ->
  run (requireLicense "Api4.getGroupsByTeam") s = mkRun (Done ()) s1 tr1 ->
  handle permission s1 = (true, s2) ->
  handle search s2 = (res, s3) ->
  run (getGroupsByTeam c) s =
  mkRun (answered StatusOK res.1 res) s3
    (tr1 ++ [Ev permission true; Ev search res]).
Proof.
  intros permission search Hid Hlic Hperm Hsearch.
  assert (Hopts :
            (if Params.IncludeMemberCount c
             then setIncludeMemberCount
                    (if (1 <? String.length (Params.Q c))%nat
                     then setQ emptyOpts (Params.Q c) else emptyOpts) true
             else if (1 <? String.length (Params.Q c))%nat
                  then setQ emptyOpts (Params.Q c) else emptyOpts)
            = searchOptsOf c None).
  { unfold searchOptsOf.
    destruct (Params.IncludeMemberCount c),
      (1 <? String.length (Params.Q c))%nat; reflexivity. }
  unfold getGroupsByTeam. rewrite Hid.
  etransitivity;
    [exact (run_bind (requireLicense "Api4.getGroupsByTeam") _ s)|].
  rewrite Hlic, andThen_done.
  simpl. fold permission. rewrite Hperm. simpl.
  rewrite Hopts. revert Hsearch. subst search. unfold pageBoundsOf.
  destruct (Params.Paginate c) as [[|]|]; simpl; intros ->;
    destruct res as [groups [e|]]; reflexivity.
Qed.

End TeamListing.

(** C9 as the specification words it does not hold.  A request that names a
    team to exclude and a one-character query: the one search the store
    receives carries neither, where the specified search carries both. *)
Lemma getGroupsByTeam_drops_notAssociatedToTeam :
  let c := withSearch (request idT1 model.GroupSyncableTypeTeam)
             "a" idT1 true in
  teamSearches (trace (run (getGroupsByTeam c) world0)) =
  [(idT1, Some 0, Some 60,
    {| model.Q := None; model.NotAssociatedToTeam := None;
       model.IncludeMemberCount := true |})]
  /\ specifiedSearchOpts c =
     {| model.Q := Some "a"; model.NotAssociatedToTeam := Some idT1;
        model.IncludeMemberCount := true |}
  /\ map snd (teamSearches (trace (run (getGroupsByTeam c) world0)))
     <> [specifiedSearchOpts c].
Proof.
  intros c. split; [reflexivity|]. split; [reflexivity|].
  intros H. vm_compute in H. discriminate H.
Qed.

(** The same request with paging switched off: no page bounds, the
    two-character query kept, no team excluded. *)
Lemma getGroupsByTeam_search_witness :
  let c := withPaging
             (withSearch (request idT1 model.GroupSyncableTypeTeam)
                "ab" idT1 true)
             (Some false) 3 1 in
  run (getGroupsByTeam c) world0 =
  mkRun (Done (StatusOK, [group "a"; group "b"; group "c"])) world0
    (licenseEvents ++
     [Ev (SessionHasPermissionToTeam idT1 model.PERMISSION_MANAGE_TEAM) true;
      Ev (GetGroupsByTeam idT1 None None
            {| model.Q := Some "ab"; model.NotAssociatedToTeam := None;
               model.IncludeMemberCount := true |})
         ([group "a"; group "b"; group "c"], None)])%list.
Proof.
  intros c.
  exact (getGroupsByTeam_search c world0 world0 world0 world0 licenseEvents
           ([group "a"; group "b"; group "c"], None)
           eq_refl eq_refl eq_refl eq_refl).
Defined.

(** ** Groups of a team: the unpaginated mode (C8) *)

Lemma concat_pages {A : Type} (l : list A) (n k : nat) :
  concat (map (fun i => take n (drop (i * n) l)) (seq 0 k)) = take (k * n) l.
Proof.
  induction k as [|k IH]; [reflexivity|].
  rewrite seq_S, map_app, concat_app, IH. simpl.
  rewrite app_nil_r, take_take_drop. f_equal. lia.
Qed.

Lemma teamGroupsOf_world (c : Params.t) (w : World) :
  String.length (Params.TeamId c) = 26%nat ->
  licensed w ->
  wHasPermissionToTeam w (Params.TeamId c) model.PERMISSION_MANAGE_TEAM = true ->
  run (getGroupsByTeam c) w =
  mkRun
    (Done (StatusOK,
           pageOfOpt (wTeamGroups w (Params.TeamId c) (searchOptsOf c None))
             (pageBoundsOf c).1 (pageBoundsOf c).2))
    w
    (licenseEvents ++
     [Ev (SessionHasPermissionToTeam (Params.TeamId c)
            model.PERMISSION_MANAGE_TEAM) true;
      Ev (GetGroupsByTeam (Params.TeamId c) (pageBoundsOf c).1
            (pageBoundsOf c).2 (searchOptsOf c None))
         (pageOfOpt (wTeamGroups w (Params.TeamId c) (searchOptsOf c None))
            (pageBoundsOf c).1 (pageBoundsOf c).2, None)])%list.
Proof.
  intros Hid Hlic Hperm. unfold getGroupsByTeam.
  cbn [RequireTeamId Checks26]. unfold requireId. rewrite Hid.
  unfold licensed in Hlic.
  simpl. rewrite Hlic. simpl. rewrite ?Hlic. simpl. rewrite Hperm. simpl.
  unfold searchOptsOf, pageBoundsOf.
  destruct (Params.IncludeMemberCount c),
    (1 <? String.length (Params.Q c))%nat,
    (Params.Paginate c) as [[|]|]; reflexivity.
Qed.

(** C8.  Modelled store.  With paginate explicitly false [getGroupsByTeam]
    hands the store no page bounds and answers with every matching group of
    the team in one sequence, whatever Page and PerPage are.  That sequence
    is the concatenation, in page order, of the answers of a paginated
    traversal with any positive page size over enough pages to cover it. *)
Theorem getGroupsByTeam_unpaginated (c : Params.t) (w : World)
    (page perPage size : Z) (pages : nat) (paginate : option bool) :
  let full := wTeamGroups w (Params.TeamId c) (searchOptsOf c None) in
  let unpaginated := withPaging c (Some false) page perPage in
  String.length (Params.TeamId c) = 26%nat ->
  licensed w ->
  wHasPermissionToTeam w (Params.TeamId c) model.PERMISSION_MANAGE_TEAM = true ->
  paginate <> Some false ->
  0 < size ->
  (length full <= pages * Z.to_nat size)%nat ->
  outcome (run (getGroupsByTeam unpaginated) w) = Done (StatusOK, full)
  /\ teamSearches (trace (run (getGroupsByTeam unpaginated) w)) =
     [(Params.TeamId c, None, None, searchOptsOf c None)]
  /\ traversal c w paginate size pages = teamGroupsOf unpaginated w.
Proof.
  intros full unpaginated Hid Hlic Hperm Hpag Hsize Hlen.
  assert (Hun : run (getGroupsByTeam unpaginated) w =
                mkRun (Done (StatusOK, full)) w
                  (licenseEvents ++
                   [Ev (SessionHasPermissionToTeam (Params.TeamId c)
                          model.PERMISSION_MANAGE_TEAM) true;
                    Ev (GetGroupsByTeam (Params.TeamId c) None None
                          (searchOptsOf c None)) (full, None)])%list).
  { exact (teamGroupsOf_world unpaginated w Hid Hlic Hperm). }
  split; [rewrite Hun; reflexivity|].
  split; [rewrite Hun; reflexivity|].
  unfold teamGroupsOf. rewrite Hun. cbn [outcome bodyOf].
  unfold traversal.
  rewrite (map_ext _ (fun i => take (Z.to_nat size)
                                 (drop (i * Z.to_nat size) full))).
  - rewrite concat_pages. apply take_ge. exact Hlen.
  - intros i. unfold teamGroupsOf.
    rewrite (teamGroupsOf_world (withPaging c paginate (Z.of_nat i) size) w
               Hid Hlic Hperm).
    cbn [outcome bodyOf]. unfold pageBoundsOf. cbn [withPaging Params.Paginate].
    destruct paginate as [[|]|]; [| congruence |];
      cbn; unfold pageOf; rewrite Nat2Z.id; reflexivity.
Qed.

(** Three groups: pages 0, 1, 2 of size one against the unpaginated answer
    to a request for page 7 of size 1. *)
Lemma getGroupsByTeam_unpaginated_witness :
  let c := request idT1 model.GroupSyncableTypeTeam in
  outcome (run (getGroupsByTeam (withPaging c (Some false) 7 1)) world0) =
  Done (StatusOK, [group "a"; group "b"; group "c"])
  /\ teamSearches
       (trace (run (getGroupsByTeam (withPaging c (Some false) 7 1)) world0)) =
     [(idT1, None, None, searchOptsOf c None)]
  /\ traversal c world0 (Some true) 1 3 =
     teamGroupsOf (withPaging c (Some false) 7 1) world0.
Proof.
  intros c.
  refine (getGroupsByTeam_unpaginated c world0 7 1 1 3 (Some true)
            eq_refl eq_refl eq_refl _ eq_refl _).
  - discriminate.
  - vm_compute. lia.
Defined.

(** ** Link, unlink, link again (C4) *)

Lemma keyOf_Patch (gs : model.GroupSyncable) (p : model.GroupSyncablePatch) :
  keyOf (model.Patch gs p) = keyOf gs.
Proof. unfold model.Patch. destruct (model.PatchAutoAdd p); reflexivity. Qed.

Lemma link_world (c : Params.t) (p : model.GroupSyncablePatch) (w : World) :
  let gs' :=
    match wSyncables w !! tripleOf c with
    | None =>
        setCreateAt
          (model.Patch
             (newGroupSyncable (Params.GroupId c) (Params.SyncableId c)
                (Params.SyncableType c)) p) (wNow w)
    | Some gs => model.Patch (model.setDeleteAt gs 0) p
    end in
  String.length (Params.GroupId c) = 26%nat ->
  String.length (Params.SyncableId c) = 26%nat ->
  licensed w ->
  linkAllowed w c ->
  (forall gs, wSyncables w !! tripleOf c = Some gs -> keyOf gs = tripleOf c) ->
  outcome (run (linkGroupSyncable c (Unmarshalled (Some p))) w) =
  Done (StatusCreated, Some gs')
  /\ final (run (linkGroupSyncable c (Unmarshalled (Some p))) w) =
     setSyncables w (<[tripleOf c := gs']> (wSyncables w)).
Proof.
  intros gs' Hg Hs Hlic Hperm Hkey. unfold licensed in Hlic.
  unfold linkGroupSyncable.
  cbn [RequireGroupId RequireSyncableId RequireSyncableType Checks26].
  unfold requireId. rewrite Hg, Hs. simpl.
  rewrite Hlic. simpl. rewrite ?Hlic. simpl.
  unfold linkAllowed in Hperm.
  assert (Hrun : forall k : unit -> Prog (Response (option model.GroupSyncable)),
            outcome (run (linkPermissionCheck (Params.SyncableId c)
                            (Params.SyncableType c) ≫= k) w)
            = outcome (run (k ()) w)
            /\ final (run (linkPermissionCheck (Params.SyncableId c)
                             (Params.SyncableType c) ≫= k) w)
               = final (run (k ()) w)).
  { intros k. unfold linkPermissionCheck.
    destruct (Params.SyncableType c); simpl; rewrite Hperm; simpl;
      split; reflexivity. }
  destruct (Hrun (fun _ => linkLookupAndPersist c (Params.SyncableId c)
                             (Params.SyncableType c) p)) as [-> ->].
  clear Hrun. subst gs'. unfold linkLookupAndPersist.
  change (GetGroupSyncable (Params.GroupId c) (Params.SyncableId c)
            (Params.SyncableType c))
    with (GetGroupSyncable (tripleOf c).1.1 (tripleOf c).1.2 (tripleOf c).2).
  assert (Hget : handle (GetGroupSyncable (tripleOf c).1.1 (tripleOf c).1.2
                           (tripleOf c).2) w = (storeFind w (tripleOf c), w))
    by reflexivity.
  destruct (wSyncables w !! tripleOf c) as [gs|] eqn:Hlk.
  - assert (Hfind : storeFind w (tripleOf c) = (Some gs, None))
      by (unfold storeFind; rewrite Hlk; reflexivity).
    assert (Hupd : storeUpdate w (model.Patch (model.setDeleteAt gs 0) p) =
                   ((Some (model.Patch (model.setDeleteAt gs 0) p), None),
                    setSyncables w
                      (<[tripleOf c := model.Patch (model.setDeleteAt gs 0) p]>
                         (wSyncables w)))).
    { unfold storeUpdate. rewrite keyOf_Patch.
      change (keyOf (model.setDeleteAt gs 0)) with (keyOf gs).
      rewrite (Hkey gs eq_refl), Hlk. reflexivity. }
    cbn [run app mbind Prog_bind bind]. rewrite Hget, Hfind.
    cbn -[storeFind storeUpdate storeCreate tripleOf]. rewrite Hupd.
    split; reflexivity.
  - assert (Hfind : storeFind w (tripleOf c) =
                    (None,
                     Some (notFoundError "SqlGroupStore.GroupGetGroupSyncable")))
      by (unfold storeFind; rewrite Hlk; reflexivity).
    pose (fresh := model.Patch
                     (newGroupSyncable (Params.GroupId c) (Params.SyncableId c)
                        (Params.SyncableType c)) p).
    assert (Hcre : storeCreate w fresh =
                   ((Some (setCreateAt fresh (wNow w)), None),
                    setSyncables w
                      (<[tripleOf c := setCreateAt fresh (wNow w)]>
                         (wSyncables w)))).
    { unfold storeCreate, fresh. rewrite keyOf_Patch.
      change (keyOf (newGroupSyncable (Params.GroupId c) (Params.SyncableId c)
                       (Params.SyncableType c)))
        with (tripleOf c).
      rewrite Hlk. reflexivity. }
    cbn [run app mbind Prog_bind bind]. rewrite Hget, Hfind.
    cbn -[storeFind storeUpdate storeCreate tripleOf]. fold fresh. rewrite Hcre.
    split; reflexivity.
Qed.

Lemma unlink_world (c : Params.t) (w : World) (gs : model.GroupSyncable) :
  String.length (Params.GroupId c) = 26%nat ->
  String.length (Params.SyncableId c) = 26%nat ->
  licensed w ->
  wHasPermissionTo w model.PERMISSION_MANAGE_SYSTEM = true ->
  wSyncables w !! tripleOf c = Some gs ->
  model.DeleteAt gs = 0 ->
  outcome (run (unlinkGroupSyncable c) w) = Done (StatusOK, ())
  /\ final (run (unlinkGroupSyncable c) w) =
     setSyncables w
       (<[tripleOf c := model.setDeleteAt gs (wNow w)]> (wSyncables w)).
Proof.
  intros Hg Hs Hlic Hperm Hlk Hactive. unfold licensed in Hlic.
  assert (Hdel : storeDelete w (tripleOf c) =
                 ((Some (model.setDeleteAt gs (wNow w)), None),
                  setSyncables w
                    (<[tripleOf c := model.setDeleteAt gs (wNow w)]>
                       (wSyncables w)))).
  { unfold storeDelete. rewrite Hlk, Hactive. reflexivity. }
  unfold unlinkGroupSyncable, requireManageSystem.
  cbn [RequireGroupId RequireSyncableId RequireSyncableType Checks26].
  unfold requireId. rewrite Hg, Hs. cbn -[storeDelete].
  rewrite Hlic. cbn -[storeDelete]. rewrite ?Hlic. cbn -[storeDelete].
  rewrite Hperm. cbn -[storeDelete].
  change (storeDelete w (Params.GroupId c, Params.SyncableId c,
                         Params.SyncableType c))
    with (storeDelete w (tripleOf c)).
  rewrite Hdel. split; reflexivity.
Qed.

(** C4, amended.  Modelled store.  Link with patch [p] where the triple has
    no record, unlink, link again with patch [p2]: the second link answers
    with the one record the store holds for the triple, that record has the
    identity of the first (same group, syncable and type, the creation time
    of the first link), its [deleteAt] is 0, and a field present in [p2]
    has the value [p2] gives.  A field absent from [p2] keeps the value the
    first link left, which is the value of [p] where [p] gives one. *)
Theorem link_unlink_link_resurrects (c : Params.t)
    (p p2 : model.GroupSyncablePatch) (t1 t2 : Z) (w : World) :
  let R := linkUnlinkLink c p p2 t1 t2 w in
  let first := model.Patch
                 (newGroupSyncable (Params.GroupId c) (Params.SyncableId c)
                    (Params.SyncableType c)) p in
  String.length (Params.GroupId c) = 26%nat ->
  String.length (Params.SyncableId c) = 26%nat ->
  licensed w ->
  linkAllowed w c ->
  wHasPermissionTo w model.PERMISSION_MANAGE_SYSTEM = true ->
  wSyncables w !! tripleOf c = None ->
  exists gs : model.GroupSyncable,
    outcome R = Done (StatusCreated, Some gs)
    /\ wSyncables (final R) !! tripleOf c = Some gs
    /\ keyOf gs = tripleOf c
    /\ model.CreateAt gs = wNow w
    /\ model.DeleteAt gs = 0
    /\ (forall v, model.PatchAutoAdd p2 = Some v -> model.AutoAdd gs = v)
    /\ (model.PatchAutoAdd p2 = None -> model.AutoAdd gs = model.AutoAdd first).
Proof.
  intros R first Hg Hs Hlic Hperm Hsys Habs.
  pose (gs1 := setCreateAt first (wNow w)).
  pose (gs2 := model.setDeleteAt gs1 t1).
  pose (gs3 := model.Patch (model.setDeleteAt gs2 0) p2).
  assert (Hkey1 : keyOf gs1 = tripleOf c).
  { unfold gs1, first.
    change (keyOf (setCreateAt ?g ?v)) with (keyOf g).
    apply keyOf_Patch. }
  assert (Hdel1 : model.DeleteAt gs1 = 0).
  { unfold gs1, first, model.Patch.
    destruct (model.PatchAutoAdd p); reflexivity. }
  assert (Hcre1 : model.CreateAt gs1 = wNow w) by reflexivity.
  (* the first link creates [gs1] *)
  destruct (link_world c p w Hg Hs Hlic Hperm) as [_ Hw1].
  { intros gs Hgs. rewrite Habs in Hgs. discriminate. }
  rewrite Habs in Hw1. fold first gs1 in Hw1.
  (* the unlink tombstones it *)
  set (w1 := atTime t1 (final (run (linkGroupSyncable c
                                      (Unmarshalled (Some p))) w))).
  assert (Hlk1 : wSyncables w1 !! tripleOf c = Some gs1).
  { unfold w1. rewrite Hw1. cbn [atTime setSyncables wSyncables].
    apply lookup_insert_eq. }
  destruct (unlink_world c w1 gs1 Hg Hs) as [_ Hw2]; try assumption.
  { unfold w1. rewrite Hw1. exact Hlic. }
  { unfold w1. rewrite Hw1. exact Hsys. }
  change (wNow w1) with t1 in Hw2. fold gs2 in Hw2.
  (* the second link finds the tombstone and updates it *)
  set (w2 := atTime t2 (final (run (unlinkGroupSyncable c) w1))).
  assert (Hlk2 : wSyncables w2 !! tripleOf c = Some gs2).
  { unfold w2. rewrite Hw2. cbn [atTime setSyncables wSyncables].
    apply lookup_insert_eq. }
  destruct (link_world c p2 w2 Hg Hs) as [Hout Hw3].
  { unfold w2. rewrite Hw2. unfold w1. rewrite Hw1. exact Hlic. }
  { unfold w2. rewrite Hw2. unfold w1. rewrite Hw1. exact Hperm. }
  { intros gs Hgs. rewrite Hlk2 in Hgs. injection Hgs as <-. exact Hkey1. }
  rewrite Hlk2 in Hout, Hw3. fold gs3 in Hout, Hw3.
  exists gs3. subst R. unfold linkUnlinkLink. fold w1. fold w2.
  split; [exact Hout|].
  split; [rewrite Hw3; cbn [setSyncables wSyncables]; apply lookup_insert_eq|].
  split; [unfold gs3; rewrite keyOf_Patch; exact Hkey1|].
  unfold gs3, model.Patch.
  destruct (model.PatchAutoAdd p2) as [v|]; cbn.
  - repeat split; [intros v' [= ->]; reflexivity | discriminate].
  - repeat split; discriminate.
Qed.

(** C4 as the specification words it does not hold for every pair of
    patches.  Link with auto-add set, unlink, link again with a patch that
    carries no field: the resurrected record has auto-add set, the value of
    the first patch; with auto-add cleared in the first patch and the same
    second patch it has auto-add cleared. *)
Lemma link_unlink_link_keeps_first_patch :
  let c := request idT1 model.GroupSyncableTypeTeam in
  let p := autoAdd true in
  let p2 := {| model.PatchAutoAdd := None |} in
  outcome (linkUnlinkLink c p p2 200 300 world0) =
  Done (StatusCreated,
        Some {| model.GroupId := idG1; model.SyncableId := idT1;
                model.AutoAdd := true; model.CreateAt := 100;
                model.DeleteAt := 0;
                model.Type' := model.GroupSyncableTypeTeam |})
  /\ outcome (linkUnlinkLink c (autoAdd false) p2 200 300 world0) =
     Done (StatusCreated,
           Some {| model.GroupId := idG1; model.SyncableId := idT1;
                   model.AutoAdd := false; model.CreateAt := 100;
                   model.DeleteAt := 0;
                   model.Type' := model.GroupSyncableTypeTeam |})
  /\ outcome (linkUnlinkLink c p p2 200 300 world0) <>
     outcome (linkUnlinkLink c (autoAdd false) p2 200 300 world0).
Proof.
  split; [vm_compute; reflexivity|]. split; [vm_compute; reflexivity|].
  intros H. vm_compute in H. discriminate H.
Qed.

(** The scenario of the specification: linked with auto-add set at time
    100, unlinked at 200, linked again with auto-add cleared at 300. *)
Lemma link_unlink_link_resurrects_witness :
  exists gs : model.GroupSyncable,
    outcome (linkUnlinkLink (request idT1 model.GroupSyncableTypeTeam)
               (autoAdd true) (autoAdd false) 200 300 world0) =
    Done (StatusCreated, Some gs)
    /\ wSyncables
         (final (linkUnlinkLink (request idT1 model.GroupSyncableTypeTeam)
                   (autoAdd true) (autoAdd false) 200 300 world0))
       !! (idG1, idT1, model.GroupSyncableTypeTeam) = Some gs
    /\ keyOf gs = (idG1, idT1, model.GroupSyncableTypeTeam)
    /\ model.CreateAt gs = 100
    /\ model.DeleteAt gs = 0
    /\ (forall v, Some false = Some v -> model.AutoAdd gs = v)
    /\ (Some false = None -> model.AutoAdd gs = true).
Proof.
  exact (link_unlink_link_resurrects
           (request idT1 model.GroupSyncableTypeTeam)
           (autoAdd true) (autoAdd false) 200 300 world0
           eq_refl eq_refl eq_refl eq_refl eq_refl eq_refl).
Defined.

(** * Further properties of the handlers *)

(** ** Validation comes first *)

Section Validation.

Context {checks : ParamChecks} {S : Type} {theApp : App S}.

(** X1.  [linkGroupSyncable] and [patchGroupSyncable] validate the request
    before they consult the application.  A malformed request (a parameter
    check that fails, a body that cannot be read or decoded, the JSON value
    null) ends in an error without a single call, license check included,
    and leaves the state alone; any other request starts with the license
    read. *)
Theorem malformed_requests_make_no_calls (c : Params.t) (r : RequestBody)
    (s : S) :
  if malformed c r
  then (exists e, run (linkGroupSyncable c r) s = mkRun (Failed e) s [])
       /\ (exists e, run (patchGroupSyncable c r) s = mkRun (Failed e) s [])
  else (exists l tr, trace (run (linkGroupSyncable c r) s) = Ev License l :: tr)
       /\ (exists l tr,
              trace (run (patchGroupSyncable c r) s) = Ev License l :: tr).
Proof.
  unfold malformed, linkGroupSyncable, patchGroupSyncable.
  destruct (RequireGroupId c) as [e1|]; [split; eexists; reflexivity|].
  destruct (RequireSyncableId c) as [e2|]; [split; eexists; reflexivity|].
  destruct (RequireSyncableType c) as [e3|]; [split; eexists; reflexivity|].
  destruct r as [msg| |[patch|]]; try (split; eexists; reflexivity).
  cbn [present decoded negb orb require].
  split.
  - exists (handle License s).1.
    change (require None ≫= ?k) with (k ()).
    cbn [mbind Prog_bind bind mret Prog_ret].
    unfold requireLicense at 1. cbn [app mbind Prog_bind bind run].
    destruct (handle License s) as [l s1]. cbn. eexists. reflexivity.
  - exists (handle License s).1.
    cbn [mbind Prog_bind bind mret Prog_ret].
    unfold requireLicense at 1. cbn [app mbind Prog_bind bind run].
    destruct (handle License s) as [l s1]. cbn. eexists. reflexivity.
Qed.

End Validation.

(** ** The license check *)

Section LicenseGate.

Context {checks : ParamChecks} {S : Type} {theApp : App S}.

Lemma requireLicense_unlicensed (where_ : string) (s s1 : S)
    (tr : list Event) :
  unlicensedAt s s1 tr ->
  run (requireLicense where_) s = mkRun (Failed (licenseError where_)) s1 tr.
Proof.
  intros [[H ->] | (l & l2 & s' & H1 & H2 & Hoff & ->)];
    unfold requireLicense; simpl.
  - rewrite H. reflexivity.
  - rewrite H1. simpl. rewrite H2. simpl. rewrite Hoff. reflexivity.
Qed.

Lemma run_after_failed_gate {A B : Type} (gate : Prog A) (k : A -> Prog B)
    (s s1 : S) (e : model.AppError) (tr : list Event) :
  run gate s = mkRun (Failed e) s1 tr ->
  run (gate ≫= k) s = mkRun (Failed e) s1 tr.
Proof. intros H. rewrite run_bind, H. reflexivity. Qed.

(** X2.  Without a license, or with LDAP groups off in it, a well-formed
    request to any of the six handlers ends in the not-implemented error of
    that handler after the license reads alone: no permission is checked and
    no store is called.  The link handler reports under the name
    Api4.createGroupSyncable. *)
Theorem unlicensed_not_implemented (c : Params.t)
    (patch : model.GroupSyncablePatch) (s s1 : S) (tr : list Event) :
  unlicensedAt s s1 tr ->
  RequireTeamId c = None ->
  triplePasses c ->
  run (getGroups c) s = mkRun (Failed (licenseError "Api4.getGroups")) s1 tr
  /\ run (getGroupsByTeam c) s =
     mkRun (Failed (licenseError "Api4.getGroupsByTeam")) s1 tr
  /\ run (linkGroupSyncable c (Unmarshalled (Some patch))) s =
     mkRun (Failed (licenseError "Api4.createGroupSyncable")) s1 tr
  /\ run (patchGroupSyncable c (Unmarshalled (Some patch))) s =
     mkRun (Failed (licenseError "Api4.patchGroupSyncable")) s1 tr
  /\ run (unlinkGroupSyncable c) s =
     mkRun (Failed (licenseError "Api4.unlinkGroupSyncable")) s1 tr
  /\ run (getGroupSyncable c) s =
     mkRun (Failed (licenseError "Api4.getGroupSyncable")) s1 tr.
Proof.
  intros Hun Hid (Hg & Hi & Ht).
  pose proof (fun w => requireLicense_unlicensed w s s1 tr Hun) as Hlic.
  unfold getGroupsByTeam, linkGroupSyncable, patchGroupSyncable,
    unlinkGroupSyncable, getGroupSyncable.
  rewrite Hid, Hg, Hi, Ht. repeat split.
  - exact (run_after_failed_gate _ _ s s1 _ tr (Hlic "Api4.getGroups")).
  - exact (run_after_failed_gate _ _ s s1 _ tr (Hlic "Api4.getGroupsByTeam")).
  - exact (run_after_failed_gate _ _ s s1 _ tr
             (Hlic "Api4.createGroupSyncable")).
  - exact (run_after_failed_gate _ _ s s1 _ tr
             (Hlic "Api4.patchGroupSyncable")).
  - exact (run_after_failed_gate _ _ s s1 _ tr
             (Hlic "Api4.unlinkGroupSyncable")).
  - exact (run_after_failed_gate _ _ s s1 _ tr
             (Hlic "Api4.getGroupSyncable")).
Qed.

End LicenseGate.

(** A server without a license: the one license read, then the error. *)
Lemma unlicensed_not_implemented_witness :
  let c := request idT1 model.GroupSyncableTypeTeam in
  let w := worldUnlicensed in
  run (getGroups c) w =
  mkRun (Failed (licenseError "Api4.getGroups")) w [Ev License None]
  /\ run (getGroupsByTeam c) w =
     mkRun (Failed (licenseError "Api4.getGroupsByTeam")) w [Ev License None]
  /\ run (linkGroupSyncable c (Unmarshalled (Some (autoAdd true)))) w =
     mkRun (Failed (licenseError "Api4.createGroupSyncable")) w
       [Ev License None]
  /\ run (patchGroupSyncable c (Unmarshalled (Some (autoAdd true)))) w =
     mkRun (Failed (licenseError "Api4.patchGroupSyncable")) w
       [Ev License None]
  /\ run (unlinkGroupSyncable c) w =
     mkRun (Failed (licenseError "Api4.unlinkGroupSyncable")) w
       [Ev License None]
  /\ run (getGroupSyncable c) w =
     mkRun (Failed (licenseError "Api4.getGroupSyncable")) w [Ev License None].
Proof.
  intros c w.
  exact (unlicensed_not_implemented c (autoAdd true) worldUnlicensed
           worldUnlicensed [Ev License None]
           (or_introl (conj eq_refl eq_refl)) eq_refl
           (conj eq_refl (conj eq_refl eq_refl))).
Defined.

(** ** What the handlers never write *)

Ltac run_cases :=
  repeat (simpl;
          match goal with
          | |- context [handle ?call ?st] => destruct (handle call st) as [? ?]
          | |- context [match ?x with _ => _ end] => destruct x
          end).

Section NoWrites.

Context {checks : ParamChecks} {S : Type} {theApp : App S}.

(** X3.  The three read handlers of this part, [getGroups],
    [getGroupsByTeam] and [getGroupSyncable], make no create, update or
    delete call, whatever the request, the session and the answers of the
    application. *)
Theorem read_handlers_never_write (c : Params.t) (s : S) :
  writes (trace (run (getGroups c) s)) = 0%nat
  /\ writes (trace (run (getGroupsByTeam c) s)) = 0%nat
  /\ writes (trace (run (getGroupSyncable c) s)) = 0%nat.
Proof.
  split; [|split].
  - unfold getGroups, requireLicense, orFail, require. run_cases; reflexivity.
  - unfold getGroupsByTeam, requireLicense, orFail, require. run_cases; reflexivity.
  - unfold getGroupSyncable, requireLicense, requireManageSystem, orFail,
      require.
    run_cases; reflexivity.
Qed.

(** X4.  [patchGroupSyncable] never creates a record: its only write is an
    update, at most one.  [unlinkGroupSyncable] neither creates nor updates:
    its only write is the delete, at most one. *)
Theorem patch_and_unlink_write_discipline (c : Params.t) (r : RequestBody)
    (s : S) :
  let P := trace (run (patchGroupSyncable c r) s) in
  let U := trace (run (unlinkGroupSyncable c) s) in
  (creates P = 0%nat /\ writes P = updates P /\ (updates P <= 1)%nat)
  /\ (creates U = 0%nat /\ updates U = 0%nat /\ (writes U <= 1)%nat).
Proof.
  split.
  - unfold patchGroupSyncable, requireLicense, requireManageSystem, orFail,
      require.
    run_cases; repeat split; auto.
  - unfold unlinkGroupSyncable, requireLicense, requireManageSystem, orFail,
      require.
    run_cases; repeat split; auto.
Qed.

End NoWrites.

(** ** What the listing handlers read of a request *)

Section ListingReads.

Context {checks : ParamChecks} {S : Type} {theApp : App S}.

Lemma getGroups_normal (c : Params.t) (s : S) :
  run (getGroups c) s =
  run (requireLicense "Api4.getGroups";;
       opts ←
         match teamFilterOf c with
         | Some teamID =>
             allowed ← app (SessionHasPermissionToTeam teamID
                              model.PERMISSION_MANAGE_TEAM);
             if negb allowed
             then Fail (SetPermissionError model.PERMISSION_MANAGE_TEAM)
             else mret (searchOptsOf c (Some teamID))
         | None => mret (searchOptsOf c None)
         end;
       '(groups, err) ←
         app (GetGroupsPage (Params.Page c) (Params.PerPage c) opts);
       orFail err;;
       mret (StatusOK, groups)) s.
Proof.
  unfold getGroups, teamFilterOf, searchOptsOf.
  rewrite !(run_bind (requireLicense "Api4.getGroups")). unfold andThen.
  destruct (outcome (run (requireLicense "Api4.getGroups") s));
    [|reflexivity..].
  generalize (final (run (requireLicense "Api4.getGroups") s)) as s1.
  generalize (trace (run (requireLicense "Api4.getGroups") s)) as tr1.
  intros tr1 s1.
  unfold orFail, setIncludeMemberCount, setNotAssociatedToTeam, setQ,
    emptyOpts.
  destruct (String.length (Params.NotAssociatedToTeam c) =? 26)%nat,
    (Params.IncludeMemberCount c), (1 <? String.length (Params.Q c))%nat;
    run_cases; reflexivity.
Qed.

Lemma getGroupsByTeam_normal (c : Params.t) :
  getGroupsByTeam c =
  (require (RequireTeamId c);;
   requireLicense "Api4.getGroupsByTeam";;
   allowed ← app (SessionHasPermissionToTeam (Params.TeamId c)
                    model.PERMISSION_MANAGE_TEAM);
   (if negb allowed
    then Fail (SetPermissionError model.PERMISSION_MANAGE_TEAM)
    else mret ());;
   '(groups, err) ←
     app (GetGroupsByTeam (Params.TeamId c) (pageBoundsOf c).1
            (pageBoundsOf c).2 (searchOptsOf c None));
   orFail err;;
   mret (StatusOK, groups)).
Proof.
  unfold getGroupsByTeam, pageBoundsOf, searchOptsOf.
  destruct (Params.Paginate c) as [[|]|], (Params.IncludeMemberCount c),
    (1 <? String.length (Params.Q c))%nat; reflexivity.
Qed.

(** X5.  Two requests get the same run from [getGroups], calls and answer,
    when they agree on the query where it is longer than one character, on
    NotAssociatedToTeam where it is 26 long, on IncludeMemberCount, Page and
    PerPage.  A query of one character counts as none, a malformed team to
    exclude as none, and the paginate flag is not read. *)
Theorem getGroups_depends_only_on (c c' : Params.t) (s : S) :
  searchOptsOf c None = searchOptsOf c' None ->
  teamFilterOf c = teamFilterOf c' ->
  Params.Page c = Params.Page c' ->
  Params.PerPage c = Params.PerPage c' ->
  run (getGroups c) s = run (getGroups c') s.
Proof.
  intros Hopts Hteam Hpage Hper.
  assert (Hopts' : forall t, searchOptsOf c t = searchOptsOf c' t).
  { intros t. unfold searchOptsOf in *. injection Hopts as -> ->.
    reflexivity. }
  rewrite !getGroups_normal, Hteam, Hpage, Hper.
  destruct (teamFilterOf c') as [t|]; rewrite Hopts'; reflexivity.
Qed.

(** X20.  Two requests get the same run from [getGroupsByTeam] when they
    agree on the team and its check, on the query where it is longer than
    one character, on IncludeMemberCount and on the page bounds in force:
    none when paginate is explicitly false, Page and PerPage otherwise.  A
    missing paginate flag counts as paging, and NotAssociatedToTeam is not
    read. *)
Theorem getGroupsByTeam_depends_only_on (c c' : Params.t) (s : S) :
  RequireTeamId c = RequireTeamId c' ->
  Params.TeamId c = Params.TeamId c' ->
  searchOptsOf c None = searchOptsOf c' None ->
  pageBoundsOf c = pageBoundsOf c' ->
  run (getGroupsByTeam c) s = run (getGroupsByTeam c') s.
Proof.
  intros Hid Hteamid Hopts Hbounds.
  rewrite !getGroupsByTeam_normal, Hid, Hteamid, Hbounds, Hopts.
  reflexivity.
Qed.

End ListingReads.

(** A one-character query, a malformed team to exclude and an explicit
    paginate flag against the bare request. *)
Lemma getGroups_depends_only_on_witness :
  let c := withPaging
             (withSearch (request idT1 model.GroupSyncableTypeTeam)
                "a" "not-a-team-id" false)
             (Some false) 0 60 in
  let c' := request idT1 model.GroupSyncableTypeTeam in
  run (getGroups c) world0 = run (getGroups c') world0.
Proof.
  intros c c'.
  exact (getGroups_depends_only_on c c' world0 eq_refl eq_refl eq_refl
           eq_refl).
Defined.

(** A one-character query, a team to exclude and an explicit paginate flag
    against the bare request. *)
Lemma getGroupsByTeam_depends_only_on_witness :
  let c := withPaging
             (withSearch (request idT1 model.GroupSyncableTypeTeam)
                "a" idT1 false)
             (Some true) 0 60 in
  let c' := request idT1 model.GroupSyncableTypeTeam in
  run (getGroupsByTeam c) world0 = run (getGroupsByTeam c') world0.
Proof.
  intros c c'.
  exact (getGroupsByTeam_depends_only_on c c' world0 eq_refl eq_refl eq_refl
           eq_refl).
Defined.

(** ** Reading one syncable, and a denied link *)

Section SyncableGate.

Context {checks : ParamChecks} {S : Type} {theApp : App S}.

(** X6.  [getGroupSyncable] is gated by the system permission whatever the
    syncable type.  Denied, it ends with the permission error after the
    check and calls no store.  Allowed, it looks the triple of the request
    up once and answers with the record under status OK; an error of the
    lookup, a missing record included, is the error it ends with. *)
Theorem getGroupSyncable_gate_and_fetch (c : Params.t) (s s1 s2 : S)
    (tr1 : list Event) (allowed : bool) :
  let permission := SessionHasPermissionTo model.PERMISSION_MANAGE_SYSTEM in
  let fetch := GetGroupSyncable (Params.GroupId c) (Params.SyncableId c)
                 (Params.SyncableType c) in
  let R := run (getGroupSyncable c) s in
  triplePasses c ->
  run (requireLicense "Api4.getGroupSyncable") s = mkRun (Done ()) s1 tr1 ->
  handle permission s1 = (allowed, s2) ->
  if allowed
  then forall res s3,
      handle fetch s2 = (res, s3) ->
      R = mkRun (answered StatusOK res.1 res) s3
            (tr1 ++ [Ev permission true; Ev fetch res])
  else R = mkRun (Failed (SetPermissionError model.PERMISSION_MANAGE_SYSTEM))
             s2 (tr1 ++ [Ev permission false]).
Proof.
  intros permission fetch R (Hg & Hi & Ht) Hlic Hperm.
  assert (HR : R = andThen (mkRun (Done ()) s1 tr1)
                     (fun _ s' =>
                        run (requireManageSystem;;
                             '(groupSyncable, err) ← app fetch;
                             orFail err;;
                             mret (StatusOK, groupSyncable)) s')).
  { subst R. unfold getGroupSyncable. rewrite Hg, Hi, Ht.
    rewrite <- Hlic.
    exact (run_bind (requireLicense "Api4.getGroupSyncable") _ s). }
  rewrite HR, andThen_done. clear HR.
  simpl. fold permission. rewrite Hperm.
  destruct allowed; simpl; [|reflexivity].
  intros res s3 Hfetch. fold fetch. rewrite Hfetch.
  destruct res as [found [e|]]; reflexivity.
Qed.

(** X7.  A link whose permission check is denied ends there: the one check
    of the switch (the team permission for a team, the public-channel
    permission for a channel) is the last call, so the record is not even
    looked up, and no other permission the session may hold is asked for.
    The error names the team permission for a team and the private-channel
    permission for a channel. *)
Theorem link_denied_makes_no_store_call (c : Params.t)
    (patch : model.GroupSyncablePatch) (s s1 s2 : S) (tr1 : list Event) :
  triplePasses c ->
  run (requireLicense "Api4.createGroupSyncable") s = mkRun (Done ()) s1 tr1 ->
  handle (linkCheckOf c) s1 = (false, s2) ->
  run (linkGroupSyncable c (Unmarshalled (Some patch))) s =
  mkRun (Failed (SetPermissionError (linkDenialOf (Params.SyncableType c))))
    s2 (tr1 ++ [Ev (linkCheckOf c) false]).
Proof.
  intros Hpass Hlic Hperm.
  rewrite (run_link_split c patch s Hpass).
  unfold linkGates. rewrite run_bind, Hlic, andThen_done.
  unfold linkCheckOf in *. unfold linkPermissionCheck.
  destruct (Params.SyncableType c); simpl; rewrite Hperm; reflexivity.
Qed.

End SyncableGate.

(** Reading a triple that has no record: the store's not-found error. *)
Lemma getGroupSyncable_gate_and_fetch_witness :
  let c := request idT1 model.GroupSyncableTypeTeam in
  run (getGroupSyncable c) world0 =
  mkRun (Failed (notFoundError "SqlGroupStore.GroupGetGroupSyncable")) world0
    (licenseEvents ++
     [Ev (SessionHasPermissionTo model.PERMISSION_MANAGE_SYSTEM) true;
      Ev (GetGroupSyncable idG1 idT1 model.GroupSyncableTypeTeam)
         (None,
          Some (notFoundError "SqlGroupStore.GroupGetGroupSyncable"))])%list.
Proof.
  intros c.
  exact (getGroupSyncable_gate_and_fetch c world0 world0 world0 licenseEvents
           true (conj eq_refl (conj eq_refl eq_refl)) eq_refl eq_refl
           (None, Some (notFoundError "SqlGroupStore.GroupGetGroupSyncable"))
           world0 eq_refl).
Defined.

(** Linking a team for a session that holds the private-channel permission
    and no team permission. *)
Lemma link_denied_makes_no_store_call_witness :
  let c := request idT1 model.GroupSyncableTypeTeam in
  run (linkGroupSyncable c (Unmarshalled (Some (autoAdd true))))
    worldPrivateOnly =
  mkRun (Failed (SetPermissionError model.PERMISSION_MANAGE_TEAM))
    worldPrivateOnly
    (licenseEvents ++
     [Ev (SessionHasPermissionToTeam idT1 model.PERMISSION_MANAGE_TEAM)
        false])%list.
Proof.
  intros c.
  exact (link_denied_makes_no_store_call c (autoAdd true) worldPrivateOnly
           worldPrivateOnly worldPrivateOnly licenseEvents
           (conj eq_refl (conj eq_refl eq_refl)) eq_refl eq_refl).
Defined.

(** ** Running the group-store handlers: lemmas *)

Section ApiSemantics.

Context {User S : Type} {theApp : App S} {theGroups : GroupApp User S}.

Lemma runApi_liftProg {R : Type} (p : Prog R) (s : S) :
  runApi (liftProg (User := User) p) s = ofRun (run p s).
Proof.
  revert s. induction p as [r | e | | X call k IH]; intros s; simpl;
    try reflexivity.
  destruct (handle call s) as [x s']. rewrite IH. reflexivity.
Qed.

Lemma runApi_bind {A B : Type} (p : Api User A) (f : A -> Api User B) (s : S) :
  runApi (p ≫= f) s = andThenApi (runApi p s) (fun a s' => runApi (f a) s').
Proof.
  unfold mbind, Api_bind.
  revert s; induction p as [a | e | | X call k IH | X call k IH];
    intros s; simpl.
  - unfold andThenApi; simpl. destruct (runApi (f a) s); reflexivity.
  - reflexivity.
  - reflexivity.
  - destruct (handle call s) as [x s']. rewrite IH.
    unfold andThenApi, apiLogged; simpl.
    destruct (apiOutcome (runApi (k x) s')); reflexivity.
  - destruct (handleGroups call s) as [x s']. rewrite IH.
    unfold andThenApi, apiLogged; simpl.
    destruct (apiOutcome (runApi (k x) s')); reflexivity.
Qed.

(** The license check and the system permission, as every handler of this
    part opens: what the rest of the handler starts from. *)
Lemma runApi_system_gate {R : Type} (where_ : string) (rest : Api User R)
    (s s1 s2 : S) (tr1 : list Event) (allowed : bool) :
  run (requireLicense where_) s = mkRun (Done ()) s1 tr1 ->
  handle (SessionHasPermissionTo model.PERMISSION_MANAGE_SYSTEM) s1
  = (allowed, s2) ->
  runApi (liftProg (requireLicense where_);;
          liftProg requireManageSystem;; rest) s =
  if allowed
  then mkApiRun (apiOutcome (runApi rest s2)) (apiFinal (runApi rest s2))
         (map OfApp
            (tr1 ++ [Ev (SessionHasPermissionTo model.PERMISSION_MANAGE_SYSTEM)
                       true])
          ++ apiTrace (runApi rest s2))
  else mkApiRun (Failed (SetPermissionError model.PERMISSION_MANAGE_SYSTEM)) s2
         (map OfApp
            (tr1 ++ [Ev (SessionHasPermissionTo model.PERMISSION_MANAGE_SYSTEM)
                       false])).
Proof.
  intros Hlic Hperm.
  rewrite runApi_bind, runApi_liftProg, Hlic.
  unfold andThenApi, ofRun. cbn [apiOutcome apiFinal apiTrace outcome final trace].
  rewrite runApi_bind. unfold requireManageSystem. simpl.
  rewrite Hperm. unfold andThenApi.
  destruct allowed; simpl.
  - rewrite map_app. simpl. rewrite <- app_assoc. reflexivity.
  - rewrite map_app. reflexivity.
Qed.

End ApiSemantics.

(** ** The handlers of the group store *)

Section GroupStoreHandlers.

Context {checks : ParamChecks} {channelCheck : ChannelCheck}.
Context {User GroupPatch S : Type} {theApp : App S}.
Context {theGroups : GroupApp User S}.

(** X8.  [getGroup] is gated by the license and the system permission.
    Denied, it ends with the permission error and calls no store.  Allowed,
    it fetches the group of the request once and answers with it under
    status OK; an error of the fetch is the error it ends with. *)
Theorem getGroup_gate_and_fetch (c : Params.t) (s s1 s2 : S)
    (tr1 : list Event) (allowed : bool) :
  let permission := SessionHasPermissionTo model.PERMISSION_MANAGE_SYSTEM in
  let fetch := GetGroup (User := User) (Params.GroupId c) in
  let R := runApi (getGroup c) s in
  RequireGroupId c = None ->
  run (requireLicense "Api4.getGroup") s = mkRun (Done ()) s1 tr1 ->
  handle permission s1 = (allowed, s2) ->
  if allowed
  then forall res s3,
      handleGroups fetch s2 = (res, s3) ->
      R = mkApiRun (answered StatusOK res.1 res) s3
            (map OfApp (tr1 ++ [Ev permission true]) ++ [OfGroups fetch res])
  else R = mkApiRun (Failed (SetPermissionError model.PERMISSION_MANAGE_SYSTEM))
             s2 (map OfApp (tr1 ++ [Ev permission false])).
Proof.
  intros permission fetch R Hid Hlic Hperm.
  assert (HR : R = _) by
    (subst R; unfold getGroup; rewrite Hid;
     exact (runApi_system_gate "Api4.getGroup" _ s s1 s2 tr1 allowed
              Hlic Hperm)).
  rewrite HR. clear HR. destruct allowed; [|reflexivity].
  intros res s3 Hfetch. simpl. fold fetch. rewrite Hfetch.
  destruct res as [found [e|]]; reflexivity.
Qed.

(** X9.  [patchGroup] with a decoded patch, past the license and the system
    permission, fetches the group of the request.  An error of the fetch
    ends the run with that error and nothing is updated.  A fetched group
    goes to the one update with the patch applied, and the run ends with
    what the update answered, under status OK.  The handler does not test
    the group for nil: should the fetch answer neither a group nor an error,
    a patch that writes a field dereferences the nil group and any other
    sends the nil group to the update. *)
Theorem patchGroup_fetch_patch_update
    (Patch : model.Group -> GroupPatch -> model.Group)
    (writesField : GroupPatch -> bool) (c : Params.t)
    (groupPatch : GroupPatch) (s s1 s2 s3 : S) (tr1 : list Event)
    (found : option model.Group) (err : option model.AppError) :
  let permission := SessionHasPermissionTo model.PERMISSION_MANAGE_SYSTEM in
  let fetch := GetGroup (User := User) (Params.GroupId c) in
  let R := runApi (patchGroup Patch writesField c (Some groupPatch)) s in
  let pre := (map OfApp (tr1 ++ [Ev permission true])
              ++ [OfGroups fetch (found, err)])%list in
  RequireGroupId c = None ->
  run (requireLicense "Api4.patchGroup") s = mkRun (Done ()) s1 tr1 ->
  handle permission s1 = (true, s2) ->
  handleGroups fetch s2 = ((found, err), s3) ->
  match err, found with
  | Some e, _ => R = mkApiRun (Failed e) s3 pre
  | None, Some g =>
      forall res s4,
        handleGroups (UpdateGroup (User := User) (Patch g groupPatch)) s3
        = (res, s4) ->
        R = mkApiRun (answered StatusOK res.1 res) s4
              (pre ++ [OfGroups (UpdateGroup (Patch g groupPatch)) res])
  | None, None =>
      if writesField groupPatch
      then R = mkApiRun Panicked s3 pre
      else forall res s4,
          handleGroups (UpdateGroupNil (User := User)) s3 = (res, s4) ->
          R = mkApiRun (answered StatusOK res.1 res) s4
                (pre ++ [OfGroups UpdateGroupNil res])
  end.
Proof.
  intros permission fetch R pre Hid Hlic Hperm Hfetch.
  assert (HR : R = _) by
    (subst R; unfold patchGroup; rewrite Hid;
     exact (runApi_system_gate "Api4.patchGroup" _ s s1 s2 tr1 true
              Hlic Hperm)).
  rewrite HR. clear HR. simpl. fold fetch. rewrite Hfetch. subst pre.
  destruct err as [e|]; [reflexivity|].
  destruct found as [g|].
  - intros res s4 Hupd. simpl. rewrite Hupd.
    rewrite <- app_assoc.
    destruct res as [updated [e|]]; reflexivity.
  - destruct (writesField groupPatch); simpl; [reflexivity|].
    intros res s4 Hupd. rewrite Hupd.
    rewrite <- app_assoc.
    destruct res as [updated [e|]]; reflexivity.
Qed.

(** X10.  [getGroupSyncables] checks the group id and the syncable type of
    the request, not a syncable id.  Past the license and the system
    permission it lists the syncables of the group and the type once and
    answers with the list; denied, it calls no store. *)
Theorem getGroupSyncables_gate_and_list (c : Params.t) (s s1 s2 : S)
    (tr1 : list Event) (allowed : bool) :
  let permission := SessionHasPermissionTo model.PERMISSION_MANAGE_SYSTEM in
  let list_ := GetGroupSyncables (User := User) (Params.GroupId c)
                 (Params.SyncableType c) in
  let R := runApi (getGroupSyncables c) s in
  RequireGroupId c = None ->
  RequireSyncableType c = None ->
  run (requireLicense "Api4.getGroupSyncables") s = mkRun (Done ()) s1 tr1 ->
  handle permission s1 = (allowed, s2) ->
  if allowed
  then forall res s3,
      handleGroups list_ s2 = (res, s3) ->
      R = mkApiRun (answered StatusOK res.1 res) s3
            (map OfApp (tr1 ++ [Ev permission true]) ++ [OfGroups list_ res])
  else R = mkApiRun (Failed (SetPermissionError model.PERMISSION_MANAGE_SYSTEM))
             s2 (map OfApp (tr1 ++ [Ev permission false])).
Proof.
  intros permission list_ R Hid Ht Hlic Hperm.
  assert (HR : R = _) by
    (subst R; unfold getGroupSyncables; rewrite Hid, Ht;
     exact (runApi_system_gate "Api4.getGroupSyncables" _ s s1 s2 tr1 allowed
              Hlic Hperm)).
  rewrite HR. clear HR. destruct allowed; [|reflexivity].
  intros res s3 Hlist. simpl. fold list_. rewrite Hlist.
  destruct res as [found [e|]]; reflexivity.
Qed.

(** X11.  [getGroupMembers], past the license and the system permission,
    asks for the members page of the group with the Page and PerPage of the
    request and answers with the members and the total count exactly as the
    store gave them; the count is not derived from the page.  Denied, it
    calls no store. *)
Theorem getGroupMembers_gate_and_page (c : Params.t) (s s1 s2 : S)
    (tr1 : list Event) (allowed : bool) :
  let permission := SessionHasPermissionTo model.PERMISSION_MANAGE_SYSTEM in
  let page := GetGroupMemberUsersPage (User := User) (Params.GroupId c)
                (Params.Page c) (Params.PerPage c) in
  let R := runApi (getGroupMembers c) s in
  RequireGroupId c = None ->
  run (requireLicense "Api4.getGroupMembers") s = mkRun (Done ()) s1 tr1 ->
  handle permission s1 = (allowed, s2) ->
  if allowed
  then forall members count err s3,
      handleGroups page s2 = ((members, count, err), s3) ->
      R = mkApiRun
            (match err with
             | Some e => Failed e
             | None => Done (StatusOK, (members, count))
             end) s3
            (map OfApp (tr1 ++ [Ev permission true])
             ++ [OfGroups page (members, count, err)])
  else R = mkApiRun (Failed (SetPermissionError model.PERMISSION_MANAGE_SYSTEM))
             s2 (map OfApp (tr1 ++ [Ev permission false])).
Proof.
  intros permission page R Hid Hlic Hperm.
  assert (HR : R = _) by
    (subst R; unfold getGroupMembers; rewrite Hid;
     exact (runApi_system_gate "Api4.getGroupMembers" _ s s1 s2 tr1 allowed
              Hlic Hperm)).
  rewrite HR. clear HR. destruct allowed; [|reflexivity].
  intros members count err s3 Hpage. simpl. fold page. rewrite Hpage.
  destruct err as [e|]; reflexivity.
Qed.

(** X12.  [getGroupsByChannel] is gated by the system permission, not by a
    permission on the channel: the one permission call is the system one.
    Allowed, it asks for the groups of the channel with the Page and PerPage
    of the request and answers with them; denied, it calls no store. *)
Theorem getGroupsByChannel_gate_and_page (c : Params.t) (s s1 s2 : S)
    (tr1 : list Event) (allowed : bool) :
  let permission := SessionHasPermissionTo model.PERMISSION_MANAGE_SYSTEM in
  let page := GetGroupsByChannel (User := User) (Params.ChannelId c)
                (Params.Page c) (Params.PerPage c) in
  let R := runApi (getGroupsByChannel c) s in
  RequireChannelId c = None ->
  run (requireLicense "Api4.getGroupsByChannel") s = mkRun (Done ()) s1 tr1 ->
  handle permission s1 = (allowed, s2) ->
  if allowed
  then forall res s3,
      handleGroups page s2 = (res, s3) ->
      R = mkApiRun (answered StatusOK res.1 res) s3
            (map OfApp (tr1 ++ [Ev permission true]) ++ [OfGroups page res])
  else R = mkApiRun (Failed (SetPermissionError model.PERMISSION_MANAGE_SYSTEM))
             s2 (map OfApp (tr1 ++ [Ev permission false])).
Proof.
  intros permission page R Hid Hlic Hperm.
  assert (HR : R = _) by
    (subst R; unfold getGroupsByChannel; rewrite Hid;
     exact (runApi_system_gate "Api4.getGroupsByChannel" _ s s1 s2 tr1 allowed
              Hlic Hperm)).
  rewrite HR. clear HR. destruct allowed; [|reflexivity].
  intros res s3 Hpage. simpl. fold page. rewrite Hpage.
  destruct res as [found [e|]]; reflexivity.
Qed.

End GroupStoreHandlers.

(** The group of the request, fetched from the directory. *)
Lemma getGroup_gate_and_fetch_witness :
  let c := request idT1 model.GroupSyncableTypeTeam in
  let d := directoryOver world0 in
  runApi (getGroup c) d =
  mkApiRun (Done (StatusOK, Some (group idG1))) d
    (map OfApp
       (licenseEvents ++
        [Ev (SessionHasPermissionTo model.PERMISSION_MANAGE_SYSTEM) true])
     ++ [OfGroups (GetGroup idG1) (Some (group idG1), None)])%list.
Proof.
  intros c d.
  exact (getGroup_gate_and_fetch c d d d licenseEvents true
           eq_refl eq_refl eq_refl (Some (group idG1), None) d eq_refl).
Defined.

(** Renaming the group of the request: the renamed group is stored and
    answered. *)
Lemma patchGroup_fetch_patch_update_witness :
  let c := request idT1 model.GroupSyncableTypeTeam in
  let d := directoryOver world0 in
  let renamed := rename (group idG1) "renamed" in
  runApi (patchGroup rename (fun _ => true) c (Some "renamed")) d =
  mkApiRun (Done (StatusOK, Some renamed))
    (setGroups d (<[idG1 := renamed]> (dGroups d)))
    ((map OfApp
        (licenseEvents ++
         [Ev (SessionHasPermissionTo model.PERMISSION_MANAGE_SYSTEM) true])
      ++ [OfGroups (GetGroup idG1) (Some (group idG1), None)])
     ++ [OfGroups (UpdateGroup renamed) (Some renamed, None)])%list.
Proof.
  intros c d renamed.
  exact (patchGroup_fetch_patch_update rename (fun _ => true) c "renamed" d d d d
           licenseEvents
           (Some (group idG1)) None eq_refl eq_refl eq_refl eq_refl
           (Some renamed, None)
           (setGroups d (<[idG1 := renamed]> (dGroups d))) eq_refl).
Defined.

(** A group without syncables: the empty list. *)
Lemma getGroupSyncables_gate_and_list_witness :
  let c := request "" model.GroupSyncableTypeChannel in
  let d := directoryOver world0 in
  runApi (getGroupSyncables c) d =
  mkApiRun (Done (StatusOK, [])) d
    (map OfApp
       (licenseEvents ++
        [Ev (SessionHasPermissionTo model.PERMISSION_MANAGE_SYSTEM) true])
     ++ [OfGroups (GetGroupSyncables idG1 model.GroupSyncableTypeChannel)
           ([], None)])%list.
Proof.
  intros c d.
  exact (getGroupSyncables_gate_and_list c d d d licenseEvents true
           eq_refl eq_refl eq_refl eq_refl ([], None) d eq_refl).
Defined.

(** The first page of size two of a group with three members: two members,
    total count three. *)
Lemma getGroupMembers_gate_and_page_witness :
  let c := withPaging (request idT1 model.GroupSyncableTypeTeam) None 0 2 in
  let d := directoryOver world0 in
  runApi (getGroupMembers c) d =
  mkApiRun (Done (StatusOK, (["u1"; "u2"], 3))) d
    (map OfApp
       (licenseEvents ++
        [Ev (SessionHasPermissionTo model.PERMISSION_MANAGE_SYSTEM) true])
     ++ [OfGroups (GetGroupMemberUsersPage idG1 0 2)
           (["u1"; "u2"], 3, None)])%list.
Proof.
  intros c d.
  exact (getGroupMembers_gate_and_page c d d d licenseEvents true
           eq_refl eq_refl eq_refl ["u1"; "u2"] 3 None d eq_refl).
Defined.

(** A session that holds the private-channel permission on the channel and
    not the system permission is denied. *)
Lemma getGroupsByChannel_gate_and_page_witness :
  let c := request idC1 model.GroupSyncableTypeChannel in
  let d := directoryOver worldPrivateOnly in
  runApi (User := string) (getGroupsByChannel c) d =
  mkApiRun (Failed (SetPermissionError model.PERMISSION_MANAGE_SYSTEM)) d
    (map OfApp
       (licenseEvents ++
        [Ev (SessionHasPermissionTo model.PERMISSION_MANAGE_SYSTEM) false])).
Proof.
  intros c d.
  exact (getGroupsByChannel_gate_and_page c d d d licenseEvents false
           eq_refl eq_refl eq_refl).
Defined.

(** ** What the group-store handlers never do *)

Ltac api_cases :=
  repeat (simpl;
          match goal with
          | |- context [handle ?call ?st] => destruct (handle call st) as [? ?]
          | |- context [handleGroups ?call ?st] =>
              destruct (handleGroups call st) as [? ?]
          | |- context [match ?x with _ => _ end] => destruct x
          end).

Section GroupStoreDiscipline.

Context {checks : ParamChecks} {channelCheck : ChannelCheck}.
Context {User GroupPatch S : Type} {theApp : App S}.
Context {theGroups : GroupApp User S}.

(** X13.  None of the five handlers writes to the syncable store.  The four
    read handlers call the group store at most once and never update a
    group.  [patchGroup] calls it at most twice and updates at most once;
    with a body that does not decode it makes no call at all, license read
    included. *)
Theorem group_store_call_discipline
    (Patch : model.Group -> GroupPatch -> model.Group)
    (writesField : GroupPatch -> bool) (c : Params.t)
    (body : option GroupPatch) (s : S) :
  let G := apiTrace (runApi (getGroup c) s) in
  let L := apiTrace (runApi (getGroupSyncables c) s) in
  let M := apiTrace (runApi (getGroupMembers c) s) in
  let C := apiTrace (runApi (getGroupsByChannel c) s) in
  let P := apiTrace (runApi (patchGroup Patch writesField c body) s) in
  (writes (appEvents G) = 0 /\ groupUpdates G = 0 /\ groupCalls G <= 1)%nat
  /\ (writes (appEvents L) = 0 /\ groupUpdates L = 0 /\ groupCalls L <= 1)%nat
  /\ (writes (appEvents M) = 0 /\ groupUpdates M = 0 /\ groupCalls M <= 1)%nat
  /\ (writes (appEvents C) = 0 /\ groupUpdates C = 0 /\ groupCalls C <= 1)%nat
  /\ (writes (appEvents P) = 0 /\ groupUpdates P <= 1 /\ groupCalls P <= 2)%nat
  /\ apiTrace (runApi (patchGroup Patch writesField c None) s) = [].
Proof.
  repeat apply conj.
  all: unfold getGroup, getGroupSyncables, getGroupMembers, getGroupsByChannel,
         patchGroup, requireLicense, requireManageSystem, require, orAbort.
  all: api_cases; simpl; auto.
Qed.

End GroupStoreDiscipline.

Section GroupStoreLicense.

Context {checks : ParamChecks} {channelCheck : ChannelCheck}.
Context {User GroupPatch S : Type} {theApp : App S}.
Context {theGroups : GroupApp User S}.

Lemma runApi_after_failed_gate {A B : Type} (gate : Prog A)
    (k : A -> Api User B) (s s1 : S) (e : model.AppError) (tr : list Event) :
  run gate s = mkRun (Failed e) s1 tr ->
  runApi (liftProg gate ≫= k) s = mkApiRun (Failed e) s1 (map OfApp tr).
Proof.
  intros H. rewrite runApi_bind, runApi_liftProg, H. reflexivity.
Qed.

(** X14.  Without a license, or with LDAP groups off in it, a well-formed
    request to [getGroup], [patchGroup], [getGroupSyncables],
    [getGroupMembers] or [getGroupsByChannel] ends in the not-implemented
    error of that handler after the license reads alone: the permission is
    not checked and the group store is not called. *)
Theorem group_store_unlicensed_not_implemented
    (Patch : model.Group -> GroupPatch -> model.Group)
    (writesField : GroupPatch -> bool) (c : Params.t)
    (groupPatch : GroupPatch) (s s1 : S) (tr : list Event) :
  unlicensedAt s s1 tr ->
  RequireGroupId c = None ->
  RequireSyncableType c = None ->
  RequireChannelId c = None ->
  runApi (getGroup c) s =
  mkApiRun (Failed (licenseError "Api4.getGroup")) s1 (map OfApp tr)
  /\ runApi (patchGroup Patch writesField c (Some groupPatch)) s =
     mkApiRun (Failed (licenseError "Api4.patchGroup")) s1 (map OfApp tr)
  /\ runApi (getGroupSyncables c) s =
     mkApiRun (Failed (licenseError "Api4.getGroupSyncables")) s1
       (map OfApp tr)
  /\ runApi (getGroupMembers c) s =
     mkApiRun (Failed (licenseError "Api4.getGroupMembers")) s1 (map OfApp tr)
  /\ runApi (getGroupsByChannel c) s =
     mkApiRun (Failed (licenseError "Api4.getGroupsByChannel")) s1
       (map OfApp tr).
Proof.
  intros Hun Hg Ht Hc.
  pose proof (fun w => requireLicense_unlicensed w s s1 tr Hun) as Hlic.
  unfold getGroup, patchGroup, getGroupSyncables, getGroupMembers,
    getGroupsByChannel.
  rewrite Hg, Ht, Hc. repeat split.
  - exact (runApi_after_failed_gate _ _ s s1 _ tr (Hlic "Api4.getGroup")).
  - exact (runApi_after_failed_gate _ _ s s1 _ tr (Hlic "Api4.patchGroup")).
  - exact (runApi_after_failed_gate _ _ s s1 _ tr
             (Hlic "Api4.getGroupSyncables")).
  - exact (runApi_after_failed_gate _ _ s s1 _ tr
             (Hlic "Api4.getGroupMembers")).
  - exact (runApi_after_failed_gate _ _ s s1 _ tr
             (Hlic "Api4.getGroupsByChannel")).
Qed.

End GroupStoreLicense.

(** The directory of a server without a license. *)
Lemma group_store_unlicensed_not_implemented_witness :
  let c := request idT1 model.GroupSyncableTypeTeam in
  let d := directoryOver worldUnlicensed in
  runApi (User := string) (getGroup c) d =
  mkApiRun (Failed (licenseError "Api4.getGroup")) d [OfApp (Ev License None)]
  /\ runApi (patchGroup rename (fun _ => true) c (Some "renamed")) d =
     mkApiRun (Failed (licenseError "Api4.patchGroup")) d
       [OfApp (Ev License None)]
  /\ runApi (User := string) (getGroupSyncables c) d =
     mkApiRun (Failed (licenseError "Api4.getGroupSyncables")) d
       [OfApp (Ev License None)]
  /\ runApi (User := string) (getGroupMembers c) d =
     mkApiRun (Failed (licenseError "Api4.getGroupMembers")) d
       [OfApp (Ev License None)]
  /\ runApi (User := string) (getGroupsByChannel c) d =
     mkApiRun (Failed (licenseError "Api4.getGroupsByChannel")) d
       [OfApp (Ev License None)].
Proof.
  intros c d.
  exact (group_store_unlicensed_not_implemented rename (fun _ => true) c
           "renamed" d d
           [Ev License None] (or_introl (conj eq_refl eq_refl))
           eq_refl eq_refl eq_refl).
Defined.

(** ** Link, then read or link again *)

Lemma getGroupSyncable_world (c : Params.t) (w : World) :
  String.length (Params.GroupId c) = 26%nat ->
  String.length (Params.SyncableId c) = 26%nat ->
  licensed w ->
  wHasPermissionTo w model.PERMISSION_MANAGE_SYSTEM = true ->
  outcome (run (getGroupSyncable c) w) =
  answered StatusOK (storeFind w (tripleOf c)).1 (storeFind w (tripleOf c))
  /\ final (run (getGroupSyncable c) w) = w.
Proof.
  intros Hg Hs Hlic Hperm. unfold licensed in Hlic.
  unfold getGroupSyncable, requireManageSystem.
  cbn [RequireGroupId RequireSyncableId RequireSyncableType Checks26].
  unfold requireId. rewrite Hg, Hs. cbn -[storeFind].
  rewrite Hlic. cbn -[storeFind]. rewrite ?Hlic. cbn -[storeFind].
  rewrite Hperm. cbn -[storeFind].
  change (storeFind w (Params.GroupId c, Params.SyncableId c,
                       Params.SyncableType c))
    with (storeFind w (tripleOf c)).
  destruct (storeFind w (tripleOf c)) as [found [e|]]; split; reflexivity.
Qed.

Lemma DeleteAt_Patch (gs : model.GroupSyncable) (p : model.GroupSyncablePatch) :
  model.DeleteAt (model.Patch gs p) = model.DeleteAt gs.
Proof. unfold model.Patch. destruct (model.PatchAutoAdd p); reflexivity. Qed.

Lemma AutoAdd_Patch (gs : model.GroupSyncable) (p : model.GroupSyncablePatch)
    (v : bool) :
  model.PatchAutoAdd p = Some v -> model.AutoAdd (model.Patch gs p) = v.
Proof. unfold model.Patch. intros ->. reflexivity. Qed.

Lemma Patch_again (gs : model.GroupSyncable) (p : model.GroupSyncablePatch) :
  model.DeleteAt gs = 0 ->
  (forall v, model.PatchAutoAdd p = Some v -> model.AutoAdd gs = v) ->
  model.Patch (model.setDeleteAt gs 0) p = gs.
Proof.
  destruct gs as [g i a cr de t]. unfold model.Patch, model.setDeleteAt.
  simpl. intros -> Hv. destruct (model.PatchAutoAdd p) as [v|]; [|reflexivity].
  rewrite (Hv v eq_refl). reflexivity.
Qed.

(** What a link leaves in a well-keyed store: the record it answered, under
    the triple of the request, active, with the fields of the patch. *)
Lemma link_world_result (c : Params.t) (p : model.GroupSyncablePatch)
    (w : World) :
  String.length (Params.GroupId c) = 26%nat ->
  String.length (Params.SyncableId c) = 26%nat ->
  licensed w ->
  linkAllowed w c ->
  wellKeyed w ->
  exists gs : model.GroupSyncable,
    outcome (run (linkGroupSyncable c (Unmarshalled (Some p))) w) =
    Done (StatusCreated, Some gs)
    /\ final (run (linkGroupSyncable c (Unmarshalled (Some p))) w) =
       setSyncables w (<[tripleOf c := gs]> (wSyncables w))
    /\ keyOf gs = tripleOf c
    /\ model.DeleteAt gs = 0
    /\ (forall v, model.PatchAutoAdd p = Some v -> model.AutoAdd gs = v).
Proof.
  intros Hg Hs Hlic Hperm Hkeyed.
  destruct (link_world c p w Hg Hs Hlic Hperm) as [Hout Hfin].
  { intros gs Hgs. exact (Hkeyed _ _ Hgs). }
  destruct (wSyncables w !! tripleOf c) as [old|] eqn:Hlk.
  - exists (model.Patch (model.setDeleteAt old 0) p).
    split; [exact Hout|]. split; [exact Hfin|].
    split; [rewrite keyOf_Patch; exact (Hkeyed _ _ Hlk)|].
    split; [apply DeleteAt_Patch|]. apply AutoAdd_Patch.
  - exists (setCreateAt
              (model.Patch
                 (newGroupSyncable (Params.GroupId c) (Params.SyncableId c)
                    (Params.SyncableType c)) p) (wNow w)).
    split; [exact Hout|]. split; [exact Hfin|].
    split; [exact (keyOf_Patch _ p)|].
    split; [exact (DeleteAt_Patch _ p)|].
    intros v Hv. exact (AutoAdd_Patch _ p v Hv).
Qed.

Lemma wellKeyed_insert (w : World) (k : TripleKey) (gs : model.GroupSyncable) :
  wellKeyed w ->
  keyOf gs = k ->
  wellKeyed (setSyncables w (<[k := gs]> (wSyncables w))).
Proof.
  intros Hw Hk k' gs'. cbn [setSyncables wSyncables].
  destruct (decide (k = k')) as [<-|Hne].
  - rewrite lookup_insert_eq. intros [= <-]. exact Hk.
  - rewrite lookup_insert_ne by exact Hne. apply Hw.
Qed.

(** X15.  Modelled store.  After a link that passes its checks in a
    well-keyed store, reading the same triple with [getGroupSyncable] at any
    later time answers the record the link answered; that record sits under
    the triple of the request, is active, and the store is still
    well-keyed. *)
Theorem link_then_read (c : Params.t) (p : model.GroupSyncablePatch)
    (w : World) (now : Z) :
  let L := run (linkGroupSyncable c (Unmarshalled (Some p))) w in
  let G := run (getGroupSyncable c) (atTime now (final L)) in
  String.length (Params.GroupId c) = 26%nat ->
  String.length (Params.SyncableId c) = 26%nat ->
  licensed w ->
  linkAllowed w c ->
  wHasPermissionTo w model.PERMISSION_MANAGE_SYSTEM = true ->
  wellKeyed w ->
  exists gs : model.GroupSyncable,
    outcome L = Done (StatusCreated, Some gs)
    /\ outcome G = Done (StatusOK, Some gs)
    /\ keyOf gs = tripleOf c
    /\ model.DeleteAt gs = 0
    /\ wellKeyed (final L).
Proof.
  intros L G Hg Hs Hlic Hperm Hsys Hkeyed.
  destruct (link_world_result c p w Hg Hs Hlic Hperm Hkeyed)
    as (gs & Hout & Hfin & Hkey & Hdel & _).
  exists gs. subst L G. rewrite Hfin.
  split; [exact Hout|].
  split.
  - destruct (getGroupSyncable_world c
                (atTime now (setSyncables w (<[tripleOf c := gs]> (wSyncables w))))
                Hg Hs Hlic Hsys) as [-> _].
    unfold storeFind. cbn [atTime setSyncables wSyncables].
    rewrite lookup_insert_eq. reflexivity.
  - split; [exact Hkey|]. split; [exact Hdel|].
    apply wellKeyed_insert; assumption.
Qed.

(** X16.  Modelled store.  Linking again with the same patch changes
    nothing: the second link answers the record the first answered and
    leaves the store as the first left it. *)
Theorem relink_is_idempotent (c : Params.t) (p : model.GroupSyncablePatch)
    (w : World) (now : Z) :
  let L1 := run (linkGroupSyncable c (Unmarshalled (Some p))) w in
  let L2 := run (linkGroupSyncable c (Unmarshalled (Some p)))
              (atTime now (final L1)) in
  String.length (Params.GroupId c) = 26%nat ->
  String.length (Params.SyncableId c) = 26%nat ->
  licensed w ->
  linkAllowed w c ->
  wellKeyed w ->
  outcome L2 = outcome L1
  /\ wSyncables (final L2) = wSyncables (final L1).
Proof.
  intros L1 L2 Hg Hs Hlic Hperm Hkeyed.
  destruct (link_world_result c p w Hg Hs Hlic Hperm Hkeyed)
    as (gs & Hout & Hfin & Hkey & Hdel & Hpatched).
  subst L1 L2. rewrite Hfin, Hout.
  set (w1 := atTime now (setSyncables w (<[tripleOf c := gs]> (wSyncables w)))).
  assert (Hlk : wSyncables w1 !! tripleOf c = Some gs)
    by (unfold w1; cbn [atTime setSyncables wSyncables];
        apply lookup_insert_eq).
  destruct (link_world c p w1 Hg Hs Hlic Hperm) as [Hout2 Hfin2].
  { intros gs' Hgs'. rewrite Hlk in Hgs'. injection Hgs' as <-. exact Hkey. }
  rewrite Hlk, (Patch_again gs p Hdel Hpatched) in Hout2, Hfin2.
  rewrite Hout2, Hfin2. split; [reflexivity|].
  unfold w1. cbn [atTime setSyncables wSyncables]. apply insert_insert_eq.
Qed.

Lemma wellKeyed_world0 : wellKeyed world0.
Proof. intros k gs H. vm_compute in H. discriminate H. Qed.

(** Linking a team in the empty store at time 100 and reading it at 150. *)
Lemma link_then_read_witness :
  let c := request idT1 model.GroupSyncableTypeTeam in
  let L := run (linkGroupSyncable c (Unmarshalled (Some (autoAdd true))))
             world0 in
  exists gs : model.GroupSyncable,
    outcome L = Done (StatusCreated, Some gs)
    /\ outcome (run (getGroupSyncable c) (atTime 150 (final L))) =
       Done (StatusOK, Some gs)
    /\ keyOf gs = tripleOf c
    /\ model.DeleteAt gs = 0
    /\ wellKeyed (final L).
Proof.
  intros c L.
  exact (link_then_read c (autoAdd true) world0 150 eq_refl eq_refl eq_refl
           eq_refl eq_refl wellKeyed_world0).
Defined.

(** Linking the same team twice, at 100 and at 150. *)
Lemma relink_is_idempotent_witness :
  let c := request idT1 model.GroupSyncableTypeTeam in
  let L1 := run (linkGroupSyncable c (Unmarshalled (Some (autoAdd true))))
              world0 in
  let L2 := run (linkGroupSyncable c (Unmarshalled (Some (autoAdd true))))
              (atTime 150 (final L1)) in
  outcome L2 = outcome L1 /\ wSyncables (final L2) = wSyncables (final L1).
Proof.
  intros c L1 L2.
  exact (relink_is_idempotent c (autoAdd true) world0 150 eq_refl eq_refl
           eq_refl eq_refl wellKeyed_world0).
Defined.

(** ** Routes *)

Ltac route_cases :=
  repeat (simpl;
          match goal with
          | |- context [String.eqb ?a ?b] =>
              destruct (String.eqb_spec a b); subst
          | |- context [allAlnum ?a] => destruct (allAlnum a)
          end).

(** X17.  No request is matched by two routes of [InitGroup]: for every
    base route, method and path at most one handler is dispatched, so the
    order of registration does not matter.  The literal segments (patch,
    members, link, groups) are never taken for a syncable type, and the
    link and unlink routes, which share a template, are told apart by the
    method. *)
Theorem InitGroup_routes_are_disjoint (b : BaseRoute) (m : Method)
    (xs : list string) :
  (length (dispatch b m xs) <= 1)%nat.
Proof.
  unfold dispatch, InitGroup.
  destruct b, m; cbn [List.filter routeMatches routeBase routeMethod routePath
                        BaseRoute_eqb Method_eqb andb map length];
    try lia;
    destruct xs as [|x1 [|x2 [|x3 [|x4 [|x5 xs]]]]];
    cbn [pathMatches segmentMatches andb map length]; try lia;
    route_cases; simpl; lia.
Qed.





(** ** Response statuses *)

Section Statuses.

Context {checks : ParamChecks} {channelCheck : ChannelCheck}.
Context {User GroupPatch S : Type} {theApp : App S}.
Context {theGroups : GroupApp User S}.

(** X19.  Whenever [linkGroupSyncable] writes a response it writes it under
    status Created, also when it updated or resurrected an existing record.
    Every other handler that writes a response writes it under status OK. *)
Theorem response_statuses
    (Patch : model.Group -> GroupPatch -> model.Group)
    (writesField : GroupPatch -> bool) (c : Params.t)
    (r : RequestBody) (body : option GroupPatch) (s : S) :
  answersWith StatusCreated (outcome (run (linkGroupSyncable c r) s))
  /\ answersWith StatusOK (outcome (run (patchGroupSyncable c r) s))
  /\ answersWith StatusOK (outcome (run (unlinkGroupSyncable c) s))
  /\ answersWith StatusOK (outcome (run (getGroupSyncable c) s))
  /\ answersWith StatusOK (outcome (run (getGroups c) s))
  /\ answersWith StatusOK (outcome (run (getGroupsByTeam c) s))
  /\ answersWith StatusOK (apiOutcome (runApi (getGroup c) s))
  /\ answersWith StatusOK (apiOutcome (runApi (patchGroup Patch writesField c body) s))
  /\ answersWith StatusOK (apiOutcome (runApi (getGroupSyncables c) s))
  /\ answersWith StatusOK (apiOutcome (runApi (getGroupMembers c) s))
  /\ answersWith StatusOK (apiOutcome (runApi (getGroupsByChannel c) s)).
Proof.
  repeat apply conj.
  all: unfold linkGroupSyncable, linkPermissionCheck, linkLookupAndPersist,
         patchGroupSyncable, unlinkGroupSyncable, getGroupSyncable, getGroups,
         getGroupsByTeam, getGroup, patchGroup, getGroupSyncables,
         getGroupMembers, getGroupsByChannel, requireLicense,
         requireManageSystem, require, orFail, orAbort.
  all: api_cases; simpl; auto.
Qed.

End Statuses.
